(** * python-opcua: the per-connection protocol processor

    A shallow embedding of [opcua/uaprocessor.py] (class [UAProcessor]) and
    the properties of its handshake, secure-channel bookkeeping, service
    dispatch, outgoing sequence numbering and publish queue.

    Modelling conventions.
    - Python integers are unbounded: they are [Z].
    - The processor object is a record; every method is a function in a
      state-and-exception monad over that record.  A Python exception is the
      outcome [Raised]; the state returned next to it holds the mutations
      done before the exception was thrown.
    - The codec library ([opcua.ua]) is not part of the processor: a message
      body is the tree of structures the codec decodes from it, and a decoder
      applied to a body of another shape raises.
    - The internal server, the session objects, the clock and the random
      generator live in a world state [W] that the processor threads through
      its calls; they are interfaces (type classes) here.
    - The socket is the list of chunks written so far, oldest first. *)

From Stdlib Require Import ZArith NArith List String Bool Lia.
Import ListNotations.
Open Scope Z_scope.

(** ** The structures of [opcua.ua] the processor touches *)

Module ua.

Module MessageType.
Inductive t := Hello | Acknowledge | Error | SecureOpen | SecureClose | SecureMessage.

Definition eqb (a b : t) : bool :=
  match a, b with
  | Hello, Hello | Acknowledge, Acknowledge | Error, Error
  | SecureOpen, SecureOpen | SecureClose, SecureClose
  | SecureMessage, SecureMessage => true
  | _, _ => false
  end.
End MessageType.

Module ChunkType.
Inductive t := Single | Intermediate | Final | Abort.
End ChunkType.

Module StatusCodes.
Inductive t := Good | BadSessionIdInvalid | BadNotImplemented.
End StatusCodes.

Module SecurityTokenRequestType.
Inductive t := Issue | Renew.
End SecurityTokenRequestType.

(** [ua.Header(msgtype, chunktype, channelid)]; the channel id is absent
    on Hello, Acknowledge and Error headers. *)
Module Header.
Record t := Build
  { MessageType : MessageType.t;
    ChunkType : ChunkType.t;
    ChannelId : option Z;
    body_size : Z }.

Definition add_size (hdr : t) (size : Z) : t :=
  Build (MessageType hdr) (ChunkType hdr) (ChannelId hdr) (body_size hdr + size).
End Header.

(** [ua.Header(msgtype, chunktype)] and [ua.Header(msgtype, chunktype, id)]. *)
Definition Header2 (m : MessageType.t) (c : ChunkType.t) : Header.t :=
  Header.Build m c None 0.
Definition Header3 (m : MessageType.t) (c : ChunkType.t) (channelid : Z) : Header.t :=
  Header.Build m c (Some channelid) 0.

Module Hello.
Record t := Build { ReceiveBufferSize : Z; SendBufferSize : Z }.
End Hello.

Module Acknowledge.
Record t := Build { ReceivebufferSize : Z; SendbufferSize : Z }.
End Acknowledge.

(** The asymmetric header has no token id of its own: [send_response]
    attaches one to the object ([TokenId = None] before that). *)
Module AsymmetricAlgorithmHeader.
Record t := Build
  { SecurityPolicyURI : string;
    SenderCertificate : list Byte.byte;
    ReceiverCertificateThumbPrint : list Byte.byte;
    TokenId : option Z }.
End AsymmetricAlgorithmHeader.

Module SymmetricAlgorithmHeader.
Record t := Build { TokenId : Z }.
End SymmetricAlgorithmHeader.

(** What [send_response] receives as [algohdr]. *)
Inductive AlgorithmHeader :=
| Asymmetric (h : AsymmetricAlgorithmHeader.t)
| Symmetric (h : SymmetricAlgorithmHeader.t).

(** [algohdr.TokenId = tokenid] *)
Definition set_TokenId (algohdr : AlgorithmHeader) (tokenid : Z) : AlgorithmHeader :=
  match algohdr with
  | Asymmetric h =>
      Asymmetric (AsymmetricAlgorithmHeader.Build
                    (AsymmetricAlgorithmHeader.SecurityPolicyURI h)
                    (AsymmetricAlgorithmHeader.SenderCertificate h)
                    (AsymmetricAlgorithmHeader.ReceiverCertificateThumbPrint h)
                    (Some tokenid))
  | Symmetric _ => Symmetric (SymmetricAlgorithmHeader.Build tokenid)
  end.

Module SequenceHeader.
Record t := Build { SequenceNumber : Z; RequestId : Z }.
End SequenceHeader.

Module RequestHeader.
Record t := Build { RequestHandle : Z }.
End RequestHeader.

Module ResponseHeader.
Record t := Build { RequestHandle : Z; ServiceResult : StatusCodes.t }.
(** the header of a freshly constructed response *)
Definition new : t := Build 0 StatusCodes.Good.
End ResponseHeader.

Module ChannelSecurityToken.
Record t := Build
  { ChannelId : Z; TokenId : Z; CreatedAt : Z; RevisedLifetime : Z }.
Definition new : t := Build 0 0 0 0.
End ChannelSecurityToken.

Module OpenSecureChannelResult.
Record t := Build
  { SecurityToken : ChannelSecurityToken.t; ServerNonce : list Byte.byte }.
Definition new : t := Build ChannelSecurityToken.new [].
End OpenSecureChannelResult.

Module OpenSecureChannelParameters.
Record t := Build
  { RequestType : SecurityTokenRequestType.t;
    ClientNonce : list Byte.byte;
    RequestedLifetime : Z }.
End OpenSecureChannelParameters.

Module OpenSecureChannelRequest.
Record t := Build
  { RequestHeader : RequestHeader.t;
    Parameters : OpenSecureChannelParameters.t }.
End OpenSecureChannelRequest.

Section Structures.
(** Structures the processor only passes on (session parameters, read
    results, notification messages, ...). *)
Variable Data : Type.

(** A service request after its type id and request header: the type id
    and the parameters the matching branch of [process_message] decodes. *)
Inductive Request :=
| CreateSessionRequest (params : Data)
| CloseSessionRequest (deletesubs : bool)
| ActivateSessionRequest (params : Data)
| ReadRequest (params : Data)
| WriteRequest (params : Data)
| BrowseRequest (params : Data)
| GetEndpointsRequest (params : Data)
| TranslateBrowsePathsToNodeIdsRequest (BrowsePaths : Data)
| AddNodesRequest (NodesToAdd : Data)
| CreateSubscriptionRequest (params : Data)
| DeleteSubscriptionsRequest (SubscriptionIds : Data)
| CreateMonitoredItemsRequest (params : Data)
| DeleteMonitoredItemsRequest (params : Data)
| PublishRequest (acks : list Z)
| UnknownRequest (typeid : Z).

(** [ActivateSessionResponse.Parameters] holds either a bare status code
    or what the session returned. *)
Inductive ActivateSessionResult :=
| StatusCode (code : StatusCodes.t)
| SessionResult (result : Data).

Inductive ResponseBody :=
| OpenSecureChannelResponse (Parameters : OpenSecureChannelResult.t)
| CreateSessionResponse (Parameters : Data)
| CloseSessionResponse
| ActivateSessionResponse (Parameters : ActivateSessionResult)
| ReadResponse (Results : Data)
| WriteResponse (Results : Data)
| BrowseResponse (Results : Data)
| GetEndpointsResponse (Endpoints : Data)
| TranslateBrowsePathsToNodeIdsResponse (Results : Data)
| AddNodesResponse (Results : Data)
| CreateSubscriptionResponse (Parameters : Data)
| DeleteSubscriptionsResponse (Results : Data)
| CreateMonitoredItemsResponse (Results : Data)
| DeleteMonitoredItemsResponse (Results : Data)
| PublishResponse (Parameters : Data)
| ServiceFault.

Record Response := BuildResponse
  { ResponseHeader : ResponseHeader.t; Body : ResponseBody }.

(** [ua.XxxResponse()] *)
Definition new_response (body : ResponseBody) : Response :=
  BuildResponse ResponseHeader.new body.

(** [response.ResponseHeader.RequestHandle = requesthandle] *)
Definition set_RequestHandle (response : Response) (requesthandle : Z) : Response :=
  BuildResponse
    (ResponseHeader.Build requesthandle
       (ResponseHeader.ServiceResult (ResponseHeader response)))
    (Body response).

(** [response.ResponseHeader.ServiceResult = code] *)
Definition set_ServiceResult (response : Response) (code : StatusCodes.t) : Response :=
  BuildResponse
    (ResponseHeader.Build
       (ResponseHeader.RequestHandle (ResponseHeader response)) code)
    (Body response).

(** What [write_socket] is given after the header. *)
Inductive Part :=
| AcknowledgePart (ack : Acknowledge.t)
| AlgorithmHeaderPart (algohdr : AlgorithmHeader)
| SequenceHeaderPart (seqhdr : SequenceHeader.t)
| ResponsePart (response : Response).

(** One [socket.send]: the header and the encoded parts after it. *)
Record Chunk := BuildChunk { chunk_header : Header.t; chunk_parts : list Part }.

(** The body of an incoming frame, as the codec decodes it. *)
Inductive Buffer :=
| HelloBody (hello : Hello.t)
| OpenSecureChannelBody (algohdr : AsymmetricAlgorithmHeader.t)
    (seqhdr : SequenceHeader.t) (request : OpenSecureChannelRequest.t)
| MessageBody (algohdr : SymmetricAlgorithmHeader.t)
    (seqhdr : SequenceHeader.t) (requesthdr : RequestHeader.t)
    (request : Request)
| EmptyBody.

(** An incoming frame: its header, the number of bytes [socket.recv]
    delivers for the body, and the body. *)
Record Frame := BuildFrame
  { frame_header : Header.t; frame_received : Z; frame_body : Buffer }.
End Structures.

Arguments CreateSessionRequest {Data}.
Arguments CloseSessionRequest {Data}.
Arguments ActivateSessionRequest {Data}.
Arguments ReadRequest {Data}.
Arguments WriteRequest {Data}.
Arguments BrowseRequest {Data}.
Arguments GetEndpointsRequest {Data}.
Arguments TranslateBrowsePathsToNodeIdsRequest {Data}.
Arguments AddNodesRequest {Data}.
Arguments CreateSubscriptionRequest {Data}.
Arguments DeleteSubscriptionsRequest {Data}.
Arguments CreateMonitoredItemsRequest {Data}.
Arguments DeleteMonitoredItemsRequest {Data}.
Arguments PublishRequest {Data}.
Arguments UnknownRequest {Data}.
Arguments StatusCode {Data}.
Arguments SessionResult {Data}.
Arguments OpenSecureChannelResponse {Data}.
Arguments CreateSessionResponse {Data}.
Arguments CloseSessionResponse {Data}.
Arguments ActivateSessionResponse {Data}.
Arguments ReadResponse {Data}.
Arguments WriteResponse {Data}.
Arguments BrowseResponse {Data}.
Arguments GetEndpointsResponse {Data}.
Arguments TranslateBrowsePathsToNodeIdsResponse {Data}.
Arguments AddNodesResponse {Data}.
Arguments CreateSubscriptionResponse {Data}.
Arguments DeleteSubscriptionsResponse {Data}.
Arguments CreateMonitoredItemsResponse {Data}.
Arguments DeleteMonitoredItemsResponse {Data}.
Arguments PublishResponse {Data}.
Arguments ServiceFault {Data}.
Arguments BuildResponse {Data}.
Arguments ResponseHeader {Data}.
Arguments Body {Data}.
Arguments new_response {Data}.
Arguments set_RequestHandle {Data}.
Arguments set_ServiceResult {Data}.
Arguments AcknowledgePart {Data}.
Arguments AlgorithmHeaderPart {Data}.
Arguments SequenceHeaderPart {Data}.
Arguments ResponsePart {Data}.
Arguments BuildChunk {Data}.
Arguments chunk_header {Data}.
Arguments chunk_parts {Data}.
Arguments HelloBody {Data}.
Arguments OpenSecureChannelBody {Data}.
Arguments MessageBody {Data}.
Arguments EmptyBody {Data}.
Arguments BuildFrame {Data}.
Arguments frame_header {Data}.
Arguments frame_received {Data}.
Arguments frame_body {Data}.

End ua.


(** ** The collaborators of the processor, as interfaces

    Every operation takes the world state [W] and returns the new one. *)

(** [self.iserver] *)
Module InternalServer.
Class facade (W Session Data : Type) := Build
  { create_session : string -> W -> W * Session;
    get_new_channel_id : W -> W * Z;
    get_endpoints : Data -> W -> W * Data }.
End InternalServer.

(** [self.session].  [create_subscription] also receives the callback
    [self.forward_publish_response]; calls of that callback are events of
    their own (see [Event]). *)
Module InternalSession.
Class facade (W Session Data : Type) := Build
  { create_session : Session -> Data -> W -> W * Data;
    close_session : Session -> bool -> W -> W;
    activate_session : Session -> Data -> W -> W * Data;
    read : Session -> Data -> W -> W * Data;
    write : Session -> Data -> W -> W * Data;
    browse : Session -> Data -> W -> W * Data;
    translate_browsepaths_to_nodeids : Session -> Data -> W -> W * Data;
    add_nodes : Session -> Data -> W -> W * Data;
    create_subscription : Session -> Data -> W -> W * Data;
    delete_subscriptions : Session -> Data -> W -> W * Data;
    create_monitored_items : Session -> Data -> W -> W * Data;
    delete_monitored_items : Session -> Data -> W -> W * Data;
    publish : Session -> list Z -> W -> W }.
End InternalSession.

(** [datetime.now()], as a timestamp *)
Module datetime.
Class clock (W : Type) := Build { now : W -> W * Z }.
End datetime.

(** [uuid.uuid4()]: a UUID is its 128-bit integer, [bytes] its 16-byte
    big-endian form. *)
Module uuid.
Class generator (W : Type) := Build { uuid4 : W -> W * N }.

Definition byte_of_N (n : N) : Byte.byte :=
  match Byte.of_N (n mod 256) with
  | Some b => b
  | None => Byte.x00
  end.

Fixpoint to_bytes (length : nat) (n : N) : list Byte.byte :=
  match length with
  | O => []
  | S k => to_bytes k (n / 256) ++ [byte_of_N n]
  end.

Definition bytes (u : N) : list Byte.byte := to_bytes 16 u.
End uuid.

(** [len(arg.to_binary())] for the parts handed to [write_socket] *)
Module codec.
Class binary (Data : Type) := Build { to_binary_size : ua.Part Data -> Z }.
End codec.

(** ** The processor *)

Inductive Exception :=
| AttributeError      (* attribute access on [None] *)
| DecodeError         (* the codec cannot decode the body *)
| ReceiveError.       (* [receive_body]: fewer bytes than asked for *)

Inductive Outcome (A : Type) :=
| Returned (a : A)
| Raised (e : Exception).
Arguments Returned {A}.
Arguments Raised {A}.

Record PublishRequestData := BuildPublishRequestData
  { requesthdr : ua.RequestHeader.t;
    algohdr : ua.AlgorithmHeader;
    seqhdr : ua.SequenceHeader.t }.

Section Processor.
Context {W Session Data : Type}.
Context {IS : InternalServer.facade W Session Data}.
Context {SS : InternalSession.facade W Session Data}.
Context {CK : datetime.clock W}.
Context {UG : uuid.generator W}.
Context {BC : codec.binary Data}.

(** The fields of [UAProcessor]; [world] is the state behind [self.iserver],
    the session objects, the clock and the random generator. *)
Record UAProcessor := BuildUAProcessor
  { world : W;
    name : string;
    session : option Session;
    channel : option ua.OpenSecureChannelResult.t;
    socket : list (ua.Chunk Data);
    _publishdata_queue : list PublishRequestData;
    _seq_number : Z }.

(** [UAProcessor.__init__(internal_server, socket, name)] on a fresh socket *)
Definition __init__ (internal_server : W) (name : string) : UAProcessor :=
  {| world := internal_server;
     name := name;
     session := None;
     channel := None;
     socket := [];
     _publishdata_queue := [];
     _seq_number := 1 |}.

Definition set_world (w : W) (self : UAProcessor) : UAProcessor :=
  BuildUAProcessor w (name self) (session self) (channel self) (socket self)
    (_publishdata_queue self) (_seq_number self).
Definition set_session (s : option Session) (self : UAProcessor) : UAProcessor :=
  BuildUAProcessor (world self) (name self) s (channel self) (socket self)
    (_publishdata_queue self) (_seq_number self).
Definition set_channel (c : option ua.OpenSecureChannelResult.t) (self : UAProcessor)
  : UAProcessor :=
  BuildUAProcessor (world self) (name self) (session self) c (socket self)
    (_publishdata_queue self) (_seq_number self).
Definition set_socket (s : list (ua.Chunk Data)) (self : UAProcessor) : UAProcessor :=
  BuildUAProcessor (world self) (name self) (session self) (channel self) s
    (_publishdata_queue self) (_seq_number self).
Definition set_publishdata_queue (q : list PublishRequestData) (self : UAProcessor)
  : UAProcessor :=
  BuildUAProcessor (world self) (name self) (session self) (channel self) (socket self)
    q (_seq_number self).
Definition set_seq_number (n : Z) (self : UAProcessor) : UAProcessor :=
  BuildUAProcessor (world self) (name self) (session self) (channel self) (socket self)
    (_publishdata_queue self) n.

(** Methods: state in, state and outcome out. *)
Definition M (A : Type) : Type := UAProcessor -> UAProcessor * Outcome A.

Definition ret {A} (a : A) : M A := fun self => (self, Returned a).
Definition raise {A} (e : Exception) : M A := fun self => (self, Raised e).
Definition bind {A B} (m : M A) (k : A -> M B) : M B :=
  fun self =>
    match m self with
    | (self', Returned a) => k a self'
    | (self', Raised e) => (self', Raised e)
    end.
Definition gets {A} (f : UAProcessor -> A) : M A := fun self => (self, Returned (f self)).
Definition modify (f : UAProcessor -> UAProcessor) : M unit :=
  fun self => (f self, Returned tt).
(** a call into the world that returns a value *)
Definition call {A} (f : W -> W * A) : M A :=
  fun self => let (w, a) := f (world self) in (set_world w self, Returned a).
(** a call into the world that returns nothing *)
Definition call_ (f : W -> W) : M unit :=
  fun self => (set_world (f (world self)) self, Returned tt).

Notation "x <- m ;; k" := (bind m (fun x => k))
  (at level 100, m at next level, right associativity).
Notation "m ;;; k" := (bind m (fun _ => k))
  (at level 100, right associativity).

(** [self.session.method(...)]: [AttributeError] when no session is bound *)
Definition with_session {A} (f : Session -> M A) : M A :=
  s <- gets session ;;
  match s with
  | Some sess => f sess
  | None => raise AttributeError
  end.

(** [self.channel.SecurityToken...]: [AttributeError] when there is no channel *)
Definition with_channel {A} (f : ua.OpenSecureChannelResult.t -> M A) : M A :=
  c <- gets channel ;;
  match c with
  | Some ch => f ch
  | None => raise AttributeError
  end.

Definition write_socket (hdr : ua.Header.t) (args : list (ua.Part Data)) : M unit :=
  let hdr :=
    fold_left (fun h arg => ua.Header.add_size h (codec.to_binary_size arg)) args hdr in
  modify (fun self => set_socket (socket self ++ [ua.BuildChunk hdr args]) self).

Definition send_response (requesthandle : Z) (algohdr : ua.AlgorithmHeader)
    (seqhdr : ua.SequenceHeader.t) (response : ua.Response Data)
    (msgtype : ua.MessageType.t) : M unit :=
  let response := ua.set_RequestHandle response requesthandle in
  seq_number <- gets _seq_number ;;
  let seqhdr :=
    ua.SequenceHeader.Build seq_number (ua.SequenceHeader.RequestId seqhdr) in
  modify (fun self => set_seq_number (_seq_number self + 1) self) ;;;
  with_channel (fun ch =>
    let token := ua.OpenSecureChannelResult.SecurityToken ch in
    let hdr := ua.Header3 msgtype ua.ChunkType.Single
                 (ua.ChannelSecurityToken.ChannelId token) in
    let algohdr := ua.set_TokenId algohdr (ua.ChannelSecurityToken.TokenId token) in
    write_socket hdr [ua.AlgorithmHeaderPart algohdr;
                      ua.SequenceHeaderPart seqhdr;
                      ua.ResponsePart response]).

(** [receive_body(frame.header.body_size)] on the bytes the socket delivers *)
Definition receive_body (frame : ua.Frame Data) : M (ua.Buffer Data) :=
  if ua.Header.body_size (ua.frame_header frame) =? ua.frame_received frame
  then ret (ua.frame_body frame)
  else raise ReceiveError.

Definition _open_secure_channel (params : ua.OpenSecureChannelParameters.t)
  : M ua.OpenSecureChannelResult.t :=
  let lifetime := ua.OpenSecureChannelParameters.RequestedLifetime params in
  match ua.OpenSecureChannelParameters.RequestType params with
  | ua.SecurityTokenRequestType.Issue =>
      channelid <- call InternalServer.get_new_channel_id ;;
      modify (set_channel (Some
        (ua.OpenSecureChannelResult.Build
           (ua.ChannelSecurityToken.Build channelid 13
              (ua.ChannelSecurityToken.CreatedAt ua.ChannelSecurityToken.new) lifetime)
           (ua.OpenSecureChannelResult.ServerNonce ua.OpenSecureChannelResult.new))))
  | ua.SecurityTokenRequestType.Renew => ret tt
  end ;;;
  with_channel (fun ch =>
    let token := ua.OpenSecureChannelResult.SecurityToken ch in
    createdat <- call datetime.now ;;
    u1 <- call uuid.uuid4 ;;
    u2 <- call uuid.uuid4 ;;
    let ch :=
      ua.OpenSecureChannelResult.Build
        (ua.ChannelSecurityToken.Build
           (ua.ChannelSecurityToken.ChannelId token)
           (ua.ChannelSecurityToken.TokenId token + 1)
           createdat lifetime)
        (uuid.bytes u1 ++ uuid.bytes u2) in
    modify (set_channel (Some ch)) ;;;
    ret ch).

(** The three decoders [open_secure_channel] runs on the body. *)
Definition decode_open_secure_channel (body : ua.Buffer Data)
  : M (ua.AsymmetricAlgorithmHeader.t * ua.SequenceHeader.t * ua.OpenSecureChannelRequest.t) :=
  match body with
  | ua.OpenSecureChannelBody algohdr seqhdr request => ret (algohdr, seqhdr, request)
  | _ => raise DecodeError
  end.

Definition open_secure_channel (body : ua.Buffer Data) : M unit :=
  decoded <- decode_open_secure_channel body ;;
  let '(algohdr, seqhdr, request) := decoded in
  channel <- _open_secure_channel (ua.OpenSecureChannelRequest.Parameters request) ;;
  let response := ua.new_response (ua.OpenSecureChannelResponse channel) in
  send_response
    (ua.RequestHeader.RequestHandle (ua.OpenSecureChannelRequest.RequestHeader request))
    (ua.Asymmetric algohdr) seqhdr response ua.MessageType.SecureOpen.

Definition forward_publish_response (result : Data) : M unit :=
  queue <- gets _publishdata_queue ;;
  match queue with
  | [] => ret tt
  | requestdata :: rest =>
      let response := ua.new_response (ua.PublishResponse result) in
      modify (set_publishdata_queue rest) ;;;
      send_response (ua.RequestHeader.RequestHandle (requesthdr requestdata))
        (algohdr requestdata) (seqhdr requestdata) response ua.MessageType.SecureMessage
  end.

(** A service of the session that takes the decoded parameters and whose
    result becomes the payload of the response. *)
Definition session_service (method : Session -> Data -> W -> W * Data) (params : Data)
    (reply : Data -> ua.ResponseBody Data) (requesthandle : Z)
    (algohdr : ua.AlgorithmHeader) (seqhdr : ua.SequenceHeader.t) : M unit :=
  results <- with_session (fun sess => call (method sess params)) ;;
  send_response requesthandle algohdr seqhdr (ua.new_response (reply results))
    ua.MessageType.SecureMessage.

(** [process_message] after the type id and the request header are decoded;
    one branch per type id, in the order of the source. *)
Definition process_message (algohdr : ua.AlgorithmHeader) (seqhdr : ua.SequenceHeader.t)
    (requesthdr : ua.RequestHeader.t) (request : ua.Request Data) : M unit :=
  let handle := ua.RequestHeader.RequestHandle requesthdr in
  let send := fun response =>
    send_response handle algohdr seqhdr response ua.MessageType.SecureMessage in
  match request with
  | ua.CreateSessionRequest params =>
      name <- gets name ;;
      sess <- call (InternalServer.create_session name) ;;
      modify (set_session (Some sess)) ;;;
      sessiondata <- with_session (fun sess =>
                       call (InternalSession.create_session sess params)) ;;
      send (ua.new_response (ua.CreateSessionResponse sessiondata))
  | ua.CloseSessionRequest deletesubs =>
      with_session (fun sess => call_ (InternalSession.close_session sess deletesubs)) ;;;
      send (ua.new_response ua.CloseSessionResponse)
  | ua.ActivateSessionRequest params =>
      s <- gets session ;;
      result <- match s with
                | None => ret (ua.StatusCode ua.StatusCodes.BadSessionIdInvalid)
                | Some sess =>
                    r <- call (InternalSession.activate_session sess params) ;;
                    ret (ua.SessionResult r)
                end ;;
      send (ua.new_response (ua.ActivateSessionResponse result))
  | ua.ReadRequest params =>
      session_service InternalSession.read params ua.ReadResponse handle algohdr seqhdr
  | ua.WriteRequest params =>
      session_service InternalSession.write params ua.WriteResponse handle algohdr seqhdr
  | ua.BrowseRequest params =>
      session_service InternalSession.browse params ua.BrowseResponse handle algohdr seqhdr
  | ua.GetEndpointsRequest params =>
      endpoints <- call (InternalServer.get_endpoints params) ;;
      send (ua.new_response (ua.GetEndpointsResponse endpoints))
  | ua.TranslateBrowsePathsToNodeIdsRequest browsepaths =>
      session_service InternalSession.translate_browsepaths_to_nodeids browsepaths
        ua.TranslateBrowsePathsToNodeIdsResponse handle algohdr seqhdr
  | ua.AddNodesRequest nodestoadd =>
      session_service InternalSession.add_nodes nodestoadd ua.AddNodesResponse
        handle algohdr seqhdr
  | ua.CreateSubscriptionRequest params =>
      session_service InternalSession.create_subscription params
        ua.CreateSubscriptionResponse handle algohdr seqhdr
  | ua.DeleteSubscriptionsRequest subscriptionids =>
      session_service InternalSession.delete_subscriptions subscriptionids
        ua.DeleteSubscriptionsResponse handle algohdr seqhdr
  | ua.CreateMonitoredItemsRequest params =>
      session_service InternalSession.create_monitored_items params
        ua.CreateMonitoredItemsResponse handle algohdr seqhdr
  | ua.DeleteMonitoredItemsRequest params =>
      session_service InternalSession.delete_monitored_items params
        ua.DeleteMonitoredItemsResponse handle algohdr seqhdr
  | ua.PublishRequest acks =>
      let data := BuildPublishRequestData requesthdr algohdr seqhdr in
      modify (fun self =>
                set_publishdata_queue (_publishdata_queue self ++ [data]) self) ;;;
      with_session (fun sess => call_ (InternalSession.publish sess acks))
  | ua.UnknownRequest _ =>
      let sf := ua.set_ServiceResult (ua.new_response ua.ServiceFault)
                  ua.StatusCodes.BadNotImplemented in
      send sf
  end.

(** The decoders [process_body] and [process_message] run on a
    [SecureMessage] body. *)
Definition decode_message (body : ua.Buffer Data)
  : M (ua.SymmetricAlgorithmHeader.t * ua.SequenceHeader.t
       * ua.RequestHeader.t * ua.Request Data) :=
  match body with
  | ua.MessageBody algohdr seqhdr requesthdr request =>
      ret (algohdr, seqhdr, requesthdr, request)
  | _ => raise DecodeError
  end.

(** [not self.channel or header.ChannelId != self.channel.SecurityToken.ChannelId] *)
Definition channel_not_issued (header : ua.Header.t)
    (channel : option ua.OpenSecureChannelResult.t) : bool :=
  match channel with
  | None => true
  | Some ch =>
      match ua.Header.ChannelId header with
      | Some id =>
          negb (id =? ua.ChannelSecurityToken.ChannelId
                        (ua.OpenSecureChannelResult.SecurityToken ch))
      | None => true
      end
  end.

Definition process_body (header : ua.Header.t) (body : ua.Buffer Data) : M bool :=
  match ua.Header.MessageType header with
  | ua.MessageType.SecureOpen =>
      open_secure_channel body ;;;
      ret true
  | ua.MessageType.SecureClose =>
      ch <- gets channel ;;
      if channel_not_issued header ch then ret false else ret true
  | ua.MessageType.SecureMessage =>
      decoded <- decode_message body ;;
      let '(algohdr, seqhdr, requesthdr, request) := decoded in
      process_message (ua.Symmetric algohdr) seqhdr requesthdr request ;;;
      ret true
  | _ => ret true
  end.

(** The [while True] of [loop]; the end of the stream is [header is None]. *)
Fixpoint loop_while (stream : list (ua.Frame Data)) : M unit :=
  match stream with
  | [] => ret tt
  | frame :: stream =>
      let header := ua.frame_header frame in
      if ua.MessageType.eqb (ua.Header.MessageType header) ua.MessageType.Error
      then ret tt
      else
        body <- receive_body frame ;;
        continue <- process_body header body ;;
        if continue : bool then loop_while stream else ret tt
  end.

Definition decode_hello (body : ua.Buffer Data) : M ua.Hello.t :=
  match body with
  | ua.HelloBody hello => ret hello
  | _ => raise DecodeError
  end.

(** The first frame of [loop]: the Hello exchange. *)
Definition hello_phase (frame : ua.Frame Data) : M bool :=
  let header := ua.frame_header frame in
  body <- receive_body frame ;;
  if negb (ua.MessageType.eqb (ua.Header.MessageType header) ua.MessageType.Hello)
  then
    write_socket (ua.Header2 ua.MessageType.Error ua.ChunkType.Single) [] ;;;
    ret false
  else
    hello <- decode_hello body ;;
    let hdr := ua.Header2 ua.MessageType.Acknowledge ua.ChunkType.Single in
    let ack := ua.Acknowledge.Build (ua.Hello.ReceiveBufferSize hello)
                 (ua.Hello.SendBufferSize hello) in
    write_socket hdr [ua.AcknowledgePart ack] ;;;
    ret true.

(** [UAProcessor.loop] on the frames the client sends before it closes the
    stream.  On an empty stream [Header.from_stream] gives [None], whose
    [body_size] is an [AttributeError]. *)
Definition loop (stream : list (ua.Frame Data)) : M unit :=
  match stream with
  | [] => raise AttributeError
  | frame :: stream =>
      continue <- hello_phase frame ;;
      if continue : bool then loop_while stream else ret tt
  end.

(** ** Runs of a connection

    The read thread runs [loop]; the subscription engine calls
    [forward_publish_response] from its own thread, at any time, also after
    the read thread is gone.  A run is a sequence of events, each handled
    as a whole. *)

Inductive Event :=
| Receive (frame : ua.Frame Data)    (* the read thread gets the next frame *)
| EndOfStream                        (* the read thread finds the stream closed *)
| Notification (result : Data).      (* the publish callback is called *)

Inductive Phase :=
| AwaitingHello     (* [loop] has not read the first frame yet *)
| Reading           (* [loop] is in its [while True] *)
| Exited.           (* [loop] has returned or died of an exception *)

Record Connection := BuildConnection
  { processor : UAProcessor; phase : Phase }.

(** One turn of the [while True] on a frame: does the loop go on? *)
Definition read_step (frame : ua.Frame Data) : M bool :=
  let header := ua.frame_header frame in
  if ua.MessageType.eqb (ua.Header.MessageType header) ua.MessageType.Error
  then ret false
  else
    body <- receive_body frame ;;
    process_body header body.

(** The read thread after a step: it goes on only when the step returned
    [True]; a [False] or an exception ends it. *)
Definition after_step (r : UAProcessor * Outcome bool) : Connection :=
  match r with
  | (self, Returned true) => BuildConnection self Reading
  | (self, _) => BuildConnection self Exited
  end.

Definition step (c : Connection) (e : Event) : Connection :=
  match e with
  | Notification result =>
      BuildConnection (fst (forward_publish_response result (processor c))) (phase c)
  | EndOfStream => BuildConnection (processor c) Exited
  | Receive frame =>
      match phase c with
      | AwaitingHello => after_step (hello_phase frame (processor c))
      | Reading => after_step (read_step frame (processor c))
      | Exited => c
      end
  end.

Definition run (events : list Event) (c : Connection) : Connection :=
  fold_left step events c.

(** A freshly accepted connection. *)
Definition connect (internal_server : W) (name : string) : Connection :=
  BuildConnection (__init__ internal_server name) AwaitingHello.

(** ** Observations on the socket and on runs *)

(** The sequence numbers written to the socket, in order. *)
Definition chunk_sequence_numbers (chunk : ua.Chunk Data) : list Z :=
  flat_map (fun part =>
              match part with
              | ua.SequenceHeaderPart seqhdr => [ua.SequenceHeader.SequenceNumber seqhdr]
              | _ => []
              end) (ua.chunk_parts chunk).

Definition sequence_numbers (chunks : list (ua.Chunk Data)) : list Z :=
  flat_map chunk_sequence_numbers chunks.

(** A reply as the client sees it: message type, request handle, sequence
    number and response body.  Chunks that are no reply (Acknowledge, Error)
    give nothing. *)
Definition Reply : Type := ua.MessageType.t * Z * Z * ua.ResponseBody Data.

Definition chunk_reply (chunk : ua.Chunk Data) : list Reply :=
  match ua.chunk_parts chunk with
  | [ua.AlgorithmHeaderPart _; ua.SequenceHeaderPart seqhdr; ua.ResponsePart response] =>
      [(ua.Header.MessageType (ua.chunk_header chunk),
        ua.ResponseHeader.RequestHandle (ua.ResponseHeader response),
        ua.SequenceHeader.SequenceNumber seqhdr,
        ua.Body response)]
  | _ => []
  end.

Definition replies (chunks : list (ua.Chunk Data)) : list Reply :=
  flat_map chunk_reply chunks.

(** The chunk [send_response] writes when the channel is [ch] and the
    counter is [seq_number]. *)
Definition response_chunk (ch : ua.OpenSecureChannelResult.t) (requesthandle : Z)
    (algohdr : ua.AlgorithmHeader) (seqhdr : ua.SequenceHeader.t)
    (response : ua.Response Data) (msgtype : ua.MessageType.t) (seq_number : Z)
  : ua.Chunk Data :=
  let token := ua.OpenSecureChannelResult.SecurityToken ch in
  let parts :=
    [ua.AlgorithmHeaderPart
       (ua.set_TokenId algohdr (ua.ChannelSecurityToken.TokenId token));
     ua.SequenceHeaderPart
       (ua.SequenceHeader.Build seq_number (ua.SequenceHeader.RequestId seqhdr));
     ua.ResponsePart (ua.set_RequestHandle response requesthandle)] in
  ua.BuildChunk
    (fold_left (fun h arg => ua.Header.add_size h (codec.to_binary_size arg)) parts
       (ua.Header3 msgtype ua.ChunkType.Single (ua.ChannelSecurityToken.ChannelId token)))
    parts.

(** The publish callback called once per result, in order. *)
Definition forward_all (results : list Data) (self : UAProcessor) : UAProcessor :=
  fold_left (fun self result => fst (forward_publish_response result self)) results self.

(** The publish responses FIFO pairing prescribes: the k-th result goes out
    with the handle of the k-th oldest slot and the k-th next sequence
    number. *)
Fixpoint fifo_pairing (queue : list PublishRequestData) (results : list Data)
    (seq_number : Z) : list Reply :=
  match queue, results with
  | slot :: queue, result :: results =>
      (ua.MessageType.SecureMessage,
       ua.RequestHeader.RequestHandle (requesthdr slot),
       seq_number,
       ua.PublishResponse result)
      :: fifo_pairing queue results (seq_number + 1)
  | _, _ => []
  end.

(** Is this event a PublishRequest that the read thread hands to
    [process_message]? *)
Definition is_publish_request (c : Connection) (e : Event) : bool :=
  match e, phase c with
  | Receive frame, Reading =>
      let header := ua.frame_header frame in
      ua.MessageType.eqb (ua.Header.MessageType header) ua.MessageType.SecureMessage
      && (ua.Header.body_size header =? ua.frame_received frame)
      && match ua.frame_body frame with
         | ua.MessageBody _ _ _ (ua.PublishRequest _) => true
         | _ => false
         end
  | _, _ => false
  end.

(** Is this event a publish callback that finds a slot? *)
Definition is_publish_response (c : Connection) (e : Event) : bool :=
  match e, _publishdata_queue (processor c) with
  | Notification _, _ :: _ => true
  | _, _ => false
  end.

(** How many events of a run satisfy [p] in the state they meet. *)
Fixpoint count_events (p : Connection -> Event -> bool) (events : list Event)
    (c : Connection) : nat :=
  match events with
  | [] => 0
  | e :: events => ((if p c e then 1 else 0) + count_events p events (step c e))%nat
  end.

Definition pushed := count_events is_publish_request.
Definition popped := count_events is_publish_response.

(** The session-scoped services that call the session without a guard:
    all of them but ActivateSession. *)
Definition requires_session (request : ua.Request Data) : bool :=
  match request with
  | ua.CloseSessionRequest _ | ua.ReadRequest _ | ua.WriteRequest _
  | ua.BrowseRequest _ | ua.TranslateBrowsePathsToNodeIdsRequest _
  | ua.AddNodesRequest _ | ua.CreateSubscriptionRequest _
  | ua.DeleteSubscriptionsRequest _ | ua.CreateMonitoredItemsRequest _
  | ua.DeleteMonitoredItemsRequest _ | ua.PublishRequest _ => true
  | _ => false
  end.

(** A frame received whole: the socket delivers the [size] bytes the header
    announces. *)
Definition whole (msgtype : ua.MessageType.t) (channelid : option Z) (size : Z)
    (body : ua.Buffer Data) : ua.Frame Data :=
  ua.BuildFrame (ua.Header.Build msgtype ua.ChunkType.Single channelid size) size body.

(** A service request in a [SecureMessage] frame. *)
Definition service (channelid : option Z) (size : Z)
    (algohdr : ua.SymmetricAlgorithmHeader.t) (seqhdr : ua.SequenceHeader.t)
    (handle : Z) (request : ua.Request Data) : ua.Frame Data :=
  whole ua.MessageType.SecureMessage channelid size
    (ua.MessageBody algohdr seqhdr (ua.RequestHeader.Build handle) request).

(** An OpenSecureChannel request of type Issue in a [SecureOpen] frame. *)
Definition issue (channelid : option Z) (size : Z)
    (algohdr : ua.AsymmetricAlgorithmHeader.t) (seqhdr : ua.SequenceHeader.t)
    (handle : Z) (nonce : list Byte.byte) (lifetime : Z) : ua.Frame Data :=
  whole ua.MessageType.SecureOpen channelid size
    (ua.OpenSecureChannelBody algohdr seqhdr
       (ua.OpenSecureChannelRequest.Build (ua.RequestHeader.Build handle)
          (ua.OpenSecureChannelParameters.Build ua.SecurityTokenRequestType.Issue
             nonce lifetime))).

(** ** Invariants of a connection *)

(** The sequence numbers on the socket are 1, 2, ..., and the counter is the
    next one; without a channel nothing numbered has been written. *)
Definition numbered (self : UAProcessor) : Prop :=
  match channel self with
  | Some _ =>
      exists n : nat,
        _seq_number self = Z.of_nat n + 1 /\
        sequence_numbers (socket self) = map Z.of_nat (seq 1 n)
  | None => sequence_numbers (socket self) = []
  end.

(** While the read thread lives and no channel has been issued, the
    processor is as [__init__] left it. *)
Definition unopened (self : UAProcessor) : Prop :=
  channel self = None ->
  _seq_number self = 1 /\ session self = None /\ _publishdata_queue self = [].

(** Token ids come from an Issue (13 + 1) and only grow. *)
Definition token_issued (self : UAProcessor) : Prop :=
  forall ch, channel self = Some ch ->
    14 <= ua.ChannelSecurityToken.TokenId (ua.OpenSecureChannelResult.SecurityToken ch).

Definition invariant (c : Connection) : Prop :=
  numbered (processor c) /\
  token_issued (processor c) /\
  (phase c <> Exited -> unopened (processor c)).

(** ** Further observations, for the rest of the processor *)

(** The total of [len(arg.to_binary())] over the parts of a chunk. *)
Definition parts_size (args : list (ua.Part Data)) : Z :=
  fold_right (fun arg size => codec.to_binary_size arg + size) 0 args.

(** The token id an algorithm header carries, if any. *)
Definition algorithm_token (algohdr : ua.AlgorithmHeader) : option Z :=
  match algohdr with
  | ua.Asymmetric h => ua.AsymmetricAlgorithmHeader.TokenId h
  | ua.Symmetric h => Some (ua.SymmetricAlgorithmHeader.TokenId h)
  end.

(** What routes a reply on the wire: the channel id of the chunk header, the
    token id of the algorithm header, the sequence number and the request
    id of the sequence header. *)
Definition Envelope : Type := option Z * option Z * Z * Z.

Definition chunk_envelope (chunk : ua.Chunk Data) : list Envelope :=
  match ua.chunk_parts chunk with
  | [ua.AlgorithmHeaderPart algohdr; ua.SequenceHeaderPart seqhdr; ua.ResponsePart _] =>
      [(ua.Header.ChannelId (ua.chunk_header chunk),
        algorithm_token algohdr,
        ua.SequenceHeader.SequenceNumber seqhdr,
        ua.SequenceHeader.RequestId seqhdr)]
  | _ => []
  end.

Definition envelopes (chunks : list (ua.Chunk Data)) : list Envelope :=
  flat_map chunk_envelope chunks.

(** The three kinds of chunk: an Acknowledge, a bare Error header, a reply
    on a channel. *)
Definition is_acknowledge (chunk : ua.Chunk Data) : bool :=
  ua.MessageType.eqb (ua.Header.MessageType (ua.chunk_header chunk))
    ua.MessageType.Acknowledge
  && match ua.chunk_parts chunk with
     | [ua.AcknowledgePart _] => true
     | _ => false
     end.

Definition is_error (chunk : ua.Chunk Data) : bool :=
  ua.MessageType.eqb (ua.Header.MessageType (ua.chunk_header chunk)) ua.MessageType.Error
  && match ua.chunk_parts chunk with
     | [] => true
     | _ => false
     end.

Definition is_reply (chunk : ua.Chunk Data) : bool :=
  (ua.MessageType.eqb (ua.Header.MessageType (ua.chunk_header chunk))
     ua.MessageType.SecureOpen
   || ua.MessageType.eqb (ua.Header.MessageType (ua.chunk_header chunk))
        ua.MessageType.SecureMessage)
  && match ua.Header.ChannelId (ua.chunk_header chunk) with
     | Some _ => true
     | None => false
     end
  && match ua.chunk_parts chunk with
     | [ua.AlgorithmHeaderPart _; ua.SequenceHeaderPart _; ua.ResponsePart _] => true
     | _ => false
     end.

(** A socket after a handshake: nothing, or one Error header and nothing
    more, or an Acknowledge followed by replies only. *)
Definition handshaken (chunks : list (ua.Chunk Data)) : bool :=
  match chunks with
  | [] => true
  | first :: rest =>
      (is_error first && match rest with [] => true | _ => false end)
      || (is_acknowledge first && forallb is_reply rest)
  end.

(** A chunk as [write_socket] builds it from a fresh header: chunk type
    Single and a body size that is the total size of the parts. *)
Definition well_formed (chunk : ua.Chunk Data) : Prop :=
  ua.Header.ChunkType (ua.chunk_header chunk) = ua.ChunkType.Single /\
  ua.Header.body_size (ua.chunk_header chunk) = parts_size (ua.chunk_parts chunk).

(** The handshake state of a connection, by the shape of its socket. *)
Definition shaped (c : Connection) : Prop :=
  match socket (processor c) with
  | [] => _publishdata_queue (processor c) = [] /\ phase c <> Reading
  | first :: rest =>
      (is_error first = true /\ rest = [] /\
       _publishdata_queue (processor c) = [] /\ phase c = Exited)
      \/ (is_acknowledge first = true /\ forallb is_reply rest = true /\
          phase c <> AwaitingHello)
  end.

(** [_open_secure_channel] on one request after the other. *)
Definition open_all (requests : list ua.OpenSecureChannelParameters.t)
    (self : UAProcessor) : UAProcessor :=
  fold_left (fun self params => fst (_open_secure_channel params self)) requests self.

(** The requests a bound session answers with one response: the
    session-scoped ones but PublishRequest. *)
Definition session_answers (request : ua.Request Data) : bool :=
  match request with
  | ua.PublishRequest _ => false
  | _ => requires_session request
  end.

(** What a method may do to the socket: append chunks, all of them
    well-formed replies. *)
Definition appends_replies (before after : UAProcessor) : Prop :=
  exists l, socket after = socket before ++ l /\
            Forall well_formed l /\ forallb is_reply l = true.

(** The service results of the responses written to the socket, in order. *)
Definition chunk_service_result (chunk : ua.Chunk Data) : list ua.StatusCodes.t :=
  flat_map (fun part =>
              match part with
              | ua.ResponsePart response =>
                  [ua.ResponseHeader.ServiceResult (ua.ResponseHeader response)]
              | _ => []
              end) (ua.chunk_parts chunk).

Definition service_results (chunks : list (ua.Chunk Data)) : list ua.StatusCodes.t :=
  flat_map chunk_service_result chunks.

End Processor.

Arguments UAProcessor : clear implicits.
Arguments Connection : clear implicits.
Arguments Event : clear implicits.
Arguments Reply : clear implicits.
Arguments M : clear implicits.
Arguments invariant : clear implicits.
Arguments shaped : clear implicits.
Arguments Envelope : clear implicits.

(** ** A test double for the collaborators

    A world with a channel-id counter, a clock, a random source and a count
    of created sessions; opaque structures are strings. *)

Module Fixture.

Record World := BuildWorld
  { next_channel_id : Z; clock : Z; entropy : N; sessions : nat }.

Definition start : World := BuildWorld 100 1000 7 0.

Definition echo (tag : string) (sess : nat) (params : string) (w : World)
  : World * string :=
  (w, (tag ++ params)%string).

#[global] Instance internal_server : InternalServer.facade World nat string :=
  InternalServer.Build World nat string
    (fun _ w =>
       (BuildWorld (next_channel_id w) (clock w) (entropy w) (S (sessions w)),
        sessions w))
    (fun w =>
       (BuildWorld (next_channel_id w + 1) (clock w) (entropy w) (sessions w),
        next_channel_id w))
    (fun params w => (w, ("endpoints:" ++ params)%string)).

#[global] Instance internal_session : InternalSession.facade World nat string :=
  InternalSession.Build World nat string
    (echo "created:") (fun _ _ w => w) (echo "activated:") (echo "read:")
    (echo "written:") (echo "browsed:") (echo "translated:") (echo "added:")
    (echo "subscribed:") (echo "unsubscribed:") (echo "monitored:")
    (echo "unmonitored:") (fun _ _ w => w).

#[global] Instance clock_now : datetime.clock World :=
  datetime.Build World
    (fun w =>
       (BuildWorld (next_channel_id w) (clock w + 1) (entropy w) (sessions w), clock w)).

#[global] Instance generator : uuid.generator World :=
  uuid.Build World
    (fun w =>
       (BuildWorld (next_channel_id w) (clock w) (entropy w * 2654435761 + 1) (sessions w),
        (entropy w mod 2 ^ 128)%N)).

#[global] Instance binary : codec.binary string :=
  codec.Build string
    (fun part =>
       match part with
       | ua.AcknowledgePart _ => 20
       | ua.AlgorithmHeaderPart _ => 4
       | ua.SequenceHeaderPart _ => 8
       | ua.ResponsePart _ => 32
       end).

Definition Processor : Type := UAProcessor World nat string.

(** Complete frames: the socket delivers as many bytes as the header says. *)
Definition frame (msgtype : ua.MessageType.t) (channelid : option Z)
    (body : ua.Buffer string) : ua.Frame string :=
  ua.BuildFrame (ua.Header.Build msgtype ua.ChunkType.Single channelid 24) 24 body.

Definition hello : ua.Frame string :=
  frame ua.MessageType.Hello None (ua.HelloBody (ua.Hello.Build 65536 65536)).

Definition open (requesttype : ua.SecurityTokenRequestType.t) : ua.Frame string :=
  frame ua.MessageType.SecureOpen (Some 0)
    (ua.OpenSecureChannelBody
       (ua.AsymmetricAlgorithmHeader.Build "http://opcfoundation.org/UA/SecurityPolicy#None"
          [] [] None)
       (ua.SequenceHeader.Build 1 1)
       (ua.OpenSecureChannelRequest.Build (ua.RequestHeader.Build 1)
          (ua.OpenSecureChannelParameters.Build requesttype [] 600000))).

Definition message (handle : Z) (request : ua.Request string) : ua.Frame string :=
  frame ua.MessageType.SecureMessage (Some 100)
    (ua.MessageBody (ua.SymmetricAlgorithmHeader.Build 14)
       (ua.SequenceHeader.Build handle handle) (ua.RequestHeader.Build handle) request).

Definition close (channelid : Z) : ua.Frame string :=
  frame ua.MessageType.SecureClose (Some channelid) ua.EmptyBody.

(** S4: create, activate and close a session on an open channel. *)
Definition S4 : list (ua.Frame string) :=
  [hello; open ua.SecurityTokenRequestType.Issue;
   message 7 (ua.CreateSessionRequest "params"%string);
   message 8 (ua.ActivateSessionRequest "token"%string);
   message 9 (ua.CloseSessionRequest true)].

(** S5: two outstanding publish requests. *)
Definition S5 : list (ua.Frame string) :=
  [hello; open ua.SecurityTokenRequestType.Issue;
   message 7 (ua.CreateSessionRequest "params"%string);
   message 20 (ua.PublishRequest []);
   message 21 (ua.PublishRequest [])].

(** The processor of a fresh connection, and after the frames of a stream. *)
Definition fresh : Processor := __init__ start "client"%string.

Definition after (stream : list (ua.Frame string)) : Processor :=
  fst (loop stream fresh).

End Fixture.


(** ** Properties *)

Section Properties.
Context {W Session Data : Type}.
Context {IS : InternalServer.facade W Session Data}.
Context {SS : InternalSession.facade W Session Data}.
Context {CK : datetime.clock W}.
Context {UG : uuid.generator W}.
Context {BC : codec.binary Data}.

Local Notation "'Proc'" := (UAProcessor W Session Data).

(** *** The send path *)

Lemma send_response_channel (self : Proc) ch requesthandle algohdr seqhdr response msgtype :
  channel self = Some ch ->
  send_response requesthandle algohdr seqhdr response msgtype self =
  (set_socket
     (socket self ++
      [response_chunk ch requesthandle algohdr seqhdr response msgtype (_seq_number self)])
     (set_seq_number (_seq_number self + 1) self),
   Returned tt).
Proof.
  intros Hch.
  unfold send_response, with_channel, write_socket, bind, gets, modify.
  simpl. rewrite Hch. reflexivity.
Qed.

Lemma send_response_no_channel (self : Proc) requesthandle algohdr seqhdr response msgtype :
  channel self = None ->
  send_response requesthandle algohdr seqhdr response msgtype self =
  (set_seq_number (_seq_number self + 1) self, Raised AttributeError).
Proof.
  intros Hch.
  unfold send_response, with_channel, bind, gets, modify, raise.
  simpl. rewrite Hch. reflexivity.
Qed.

Lemma response_chunk_sequence_numbers ch requesthandle algohdr seqhdr
    (response : ua.Response Data) msgtype n :
  chunk_sequence_numbers
    (response_chunk ch requesthandle algohdr seqhdr response msgtype n) = [n].
Proof. reflexivity. Qed.

Lemma response_chunk_reply ch requesthandle algohdr seqhdr
    (response : ua.Response Data) msgtype n :
  chunk_reply (response_chunk ch requesthandle algohdr seqhdr response msgtype n) =
  [(msgtype, requesthandle, n, ua.Body response)].
Proof. reflexivity. Qed.

Lemma sequence_numbers_app (a b : list (ua.Chunk Data)) :
  sequence_numbers (a ++ b) = sequence_numbers a ++ sequence_numbers b.
Proof. apply flat_map_app. Qed.

Lemma replies_app (a b : list (ua.Chunk Data)) :
  replies (a ++ b) = replies a ++ replies b.
Proof. apply flat_map_app. Qed.

Lemma to_bytes_length n u : List.length (uuid.to_bytes n u) = n.
Proof.
  revert u. induction n as [|n IH]; intros u; simpl.
  - reflexivity.
  - rewrite length_app, IH. simpl. lia.
Qed.

Lemma uuid_bytes_length u : List.length (uuid.bytes u) = 16%nat.
Proof. apply to_bytes_length. Qed.

(** *** The Hello exchange *)

(** C3, as the code has it: the body of the first frame is read before its
    type is looked at, so the property is one of a first frame received
    whole.  If the type of such a frame is not Hello, [loop] writes one
    chunk, an Error header with chunk type Single and nothing after it,
    writes no Acknowledge and returns without looking at the rest of the
    stream.  If it is a Hello, the processor writes one Acknowledge whose
    two buffer sizes are those of the Hello, unchanged, and goes on to its
    read loop. *)
Theorem hello_exchange (frame : ua.Frame Data) (stream : list (ua.Frame Data))
    (self : Proc) :
  ua.Header.body_size (ua.frame_header frame) = ua.frame_received frame ->
  (ua.Header.MessageType (ua.frame_header frame) <> ua.MessageType.Hello ->
   loop (frame :: stream) self =
   (set_socket
      (socket self ++
       [ua.BuildChunk
          (ua.Header.Build ua.MessageType.Error ua.ChunkType.Single None 0) []])
      self,
    Returned tt))
  /\
  (ua.Header.MessageType (ua.frame_header frame) = ua.MessageType.Hello ->
   forall hello, ua.frame_body frame = ua.HelloBody hello ->
   let ack :=
     ua.Acknowledge.Build (ua.Hello.ReceiveBufferSize hello)
       (ua.Hello.SendBufferSize hello) in
   let acknowledged :=
     set_socket
       (socket self ++
        [ua.BuildChunk
           (ua.Header.Build ua.MessageType.Acknowledge ua.ChunkType.Single None
              (0 + codec.to_binary_size (ua.AcknowledgePart ack)))
           [ua.AcknowledgePart ack]])
       self in
   hello_phase frame self = (acknowledged, Returned true) /\
   loop (frame :: stream) self = loop_while stream acknowledged).
Proof.
  intros Hsize. split.
  - intros Htype.
    unfold loop, hello_phase, receive_body, bind.
    rewrite Hsize, Z.eqb_refl. cbn [ret].
    destruct (ua.Header.MessageType (ua.frame_header frame)); try congruence; reflexivity.
  - intros Htype hello Hbody ack acknowledged.
    assert (Hphase : hello_phase frame self = (acknowledged, Returned true)).
    { unfold hello_phase, receive_body, bind.
      rewrite Hsize, Z.eqb_refl, Htype, Hbody. reflexivity. }
    split; [exact Hphase|].
    unfold loop, bind. rewrite Hphase. reflexivity.
Qed.

(** *** SecureClose and the end of the read loop *)

Lemma secure_close_state (header : ua.Header.t) (body : ua.Buffer Data) (self : Proc) :
  ua.Header.MessageType header = ua.MessageType.SecureClose ->
  fst (process_body header body self) = self.
Proof.
  intros Htype. unfold process_body, bind, gets, ret. rewrite Htype.
  destruct (channel_not_issued header (channel self)); reflexivity.
Qed.

Lemma secure_close_not_issued (header : ua.Header.t) (body : ua.Buffer Data)
    (self : Proc) :
  ua.Header.MessageType header = ua.MessageType.SecureClose ->
  channel_not_issued header (channel self) = true ->
  process_body header body self = (self, Returned false).
Proof.
  intros Htype Hnot. unfold process_body, bind, gets, ret.
  rewrite Htype, Hnot. reflexivity.
Qed.

Lemma loop_while_stops (header : ua.Header.t) (body : ua.Buffer Data)
    (stream : list (ua.Frame Data)) (self : Proc) :
  ua.Header.MessageType header = ua.MessageType.SecureClose ->
  process_body header body self = (self, Returned false) ->
  loop_while (ua.BuildFrame header (ua.Header.body_size header) body :: stream) self =
  (self, Returned tt).
Proof.
  intros Htype Hbody. simpl. rewrite Htype. simpl.
  unfold bind, receive_body. simpl. rewrite Z.eqb_refl. unfold ret at 1.
  rewrite Hbody. reflexivity.
Qed.

Lemma channel_not_issued_mismatch (header : ua.Header.t) (self : Proc) :
  (forall ch, channel self = Some ch ->
     ua.Header.ChannelId header <>
     Some (ua.ChannelSecurityToken.ChannelId (ua.OpenSecureChannelResult.SecurityToken ch))) ->
  channel_not_issued header (channel self) = true.
Proof.
  intros Hmismatch. unfold channel_not_issued.
  destruct (channel self) as [ch|] eqn:Hch; [|reflexivity].
  specialize (Hmismatch ch eq_refl).
  destruct (ua.Header.ChannelId header) as [id|]; [|reflexivity].
  apply negb_true_iff, Z.eqb_neq. congruence.
Qed.

(** C2, as the code has it: a SecureClose frame never changes the processor
    (no field is written, so the channel record stays, and nothing is sent),
    whether its channel id matches or not.  When no channel exists or the
    header's channel id is not the one of the stored record, [process_body]
    returns [False] and the read loop returns at once, leaving the rest of
    the stream unread. *)
Theorem secure_close_leaves_state (header : ua.Header.t) (body : ua.Buffer Data)
    (self : Proc) :
  ua.Header.MessageType header = ua.MessageType.SecureClose ->
  fst (process_body header body self) = self /\
  ((forall ch, channel self = Some ch ->
      ua.Header.ChannelId header <>
      Some (ua.ChannelSecurityToken.ChannelId (ua.OpenSecureChannelResult.SecurityToken ch))) ->
   process_body header body self = (self, Returned false) /\
   forall stream,
     loop_while (ua.BuildFrame header (ua.Header.body_size header) body :: stream) self =
     (self, Returned tt)).
Proof.
  intros Htype. split; [apply secure_close_state, Htype|].
  intros Hmismatch.
  pose proof (secure_close_not_issued header body self Htype
                (channel_not_issued_mismatch header self Hmismatch)) as Hbody.
  split; [exact Hbody|].
  intros stream. apply loop_while_stops; assumption.
Qed.

(** *** Services without a session *)

(** C7, as the code has it: the reply needs an open channel.  An
    ActivateSession request met with no session bound does not touch the
    absent session: the handler goes straight to [send_response] with an
    ActivateSessionResponse whose Parameters is the status code
    BadSessionIdInvalid.  With a session bound, the Parameters is what
    [session.activate_session(params)] returned.  On an open channel
    [process_message] then returns, with that one response written. *)
Theorem activate_session_reply (self : Proc) algohdr seqhdr requesthdr params :
  let handle := ua.RequestHeader.RequestHandle requesthdr in
  let outcome :=
    process_message algohdr seqhdr requesthdr (ua.ActivateSessionRequest params) self in
  let response := fun result =>
    ua.new_response (ua.ActivateSessionResponse (Data := Data) result) in
  let invalid := ua.StatusCode ua.StatusCodes.BadSessionIdInvalid in
  let activated := fun sess =>
    InternalSession.activate_session sess params (world self) in
  (session self = None ->
   outcome =
   send_response handle algohdr seqhdr (response invalid) ua.MessageType.SecureMessage self)
  /\
  (forall sess, session self = Some sess ->
   outcome =
   send_response handle algohdr seqhdr
     (response (ua.SessionResult (snd (activated sess))))
     ua.MessageType.SecureMessage (set_world (fst (activated sess)) self))
  /\
  (forall ch, channel self = Some ch ->
   let reply := fun result =>
     response_chunk ch handle algohdr seqhdr (response result)
       ua.MessageType.SecureMessage (_seq_number self) in
   snd outcome = Returned tt /\
   (session self = None -> socket (fst outcome) = socket self ++ [reply invalid]) /\
   (forall sess, session self = Some sess ->
    socket (fst outcome) =
    socket self ++ [reply (ua.SessionResult (snd (activated sess)))])).
Proof.
  intros handle outcome response invalid activated.
  assert (Hnone : session self = None ->
                  outcome =
                  send_response handle algohdr seqhdr (response invalid)
                    ua.MessageType.SecureMessage self).
  { intros Hs. subst outcome. unfold process_message, bind, gets, ret.
    rewrite Hs. reflexivity. }
  assert (Hsome : forall sess, session self = Some sess ->
                  outcome =
                  send_response handle algohdr seqhdr
                    (response (ua.SessionResult (snd (activated sess))))
                    ua.MessageType.SecureMessage (set_world (fst (activated sess)) self)).
  { intros sess Hs. subst outcome activated. unfold process_message, bind, gets, call, ret.
    rewrite Hs. cbn beta iota.
    destruct (InternalSession.activate_session sess params (world self)) as [w r].
    reflexivity. }
  split; [exact Hnone|]. split; [exact Hsome|].
  intros ch Hch reply.
  destruct (session self) as [sess|] eqn:Hs.
  - rewrite (Hsome sess eq_refl).
    rewrite (send_response_channel _ ch) by exact Hch.
    repeat split; [congruence|].
    intros sess' Hsess. inversion Hsess; subst. reflexivity.
  - rewrite (Hnone eq_refl).
    rewrite (send_response_channel _ ch) by exact Hch.
    repeat split. congruence.
Qed.

(** C10: with no session bound, each of CloseSession, Read, Write, Browse,
    TranslateBrowsePathsToNodeIds, AddNodes, CreateSubscription,
    DeleteSubscriptions, CreateMonitoredItems, DeleteMonitoredItems and
    PublishRequest makes its handler reach for the absent session:
    [process_message] raises [AttributeError], nothing catches it in
    [process_body], and nothing is written to the socket for that request:
    no response and no ServiceFault. *)
Theorem session_scoped_request_raises (self : Proc) header algohdr seqhdr requesthdr
    (request : ua.Request Data) :
  requires_session request = true ->
  session self = None ->
  ua.Header.MessageType header = ua.MessageType.SecureMessage ->
  let dispatched :=
    process_message (ua.Symmetric algohdr) seqhdr requesthdr request self in
  snd dispatched = Raised AttributeError /\
  socket (fst dispatched) = socket self /\
  process_body header (ua.MessageBody algohdr seqhdr requesthdr request) self =
  (fst dispatched, Raised AttributeError).
Proof.
  intros Hreq Hsess Htype dispatched.
  assert (H : snd dispatched = Raised AttributeError /\
              socket (fst dispatched) = socket self).
  { subst dispatched.
    destruct request; try discriminate Hreq;
      unfold process_message, session_service, with_session, bind, gets, modify, raise;
      simpl; rewrite Hsess; simpl; auto. }
  destruct H as [Hraised Hsocket].
  repeat split; trivial.
  unfold process_body. rewrite Htype.
  unfold bind, decode_message. cbn [ret].
  fold dispatched. destruct dispatched as [self' r]. simpl in Hraised. subst r.
  reflexivity.
Qed.

(** *** The invariant of runs *)

Local Arguments uuid.bytes : simpl never.

Ltac unfold_methods :=
  unfold process_message, session_service, open_secure_channel,
    _open_secure_channel, decode_open_secure_channel, decode_message, decode_hello,
    forward_publish_response, send_response, write_socket, receive_body,
    with_session, with_channel, bind, gets, modify, call, call_, ret, raise in *.

Ltac break_calls :=
  repeat (simpl;
          match goal with
          | |- context [let (_, _) := ?x in _] =>
              lazymatch x with
              | context [let (_, _) := _ in _] => fail
              | context [match _ with _ => _ end] => fail
              | _ => destruct x
              end
          end).

Lemma numbered_snoc (so : list (ua.Chunk Data)) (sq : Z) (n : nat) chunk :
  sq = Z.of_nat n + 1 ->
  sequence_numbers so = map Z.of_nat (seq 1 n) ->
  chunk_sequence_numbers chunk = [sq] ->
  exists m : nat,
    sq + 1 = Z.of_nat m + 1 /\
    sequence_numbers (so ++ [chunk]) = map Z.of_nat (seq 1 m).
Proof.
  intros Hsq Hso Hchunk. exists (S n). split; [lia|].
  rewrite sequence_numbers_app, Hso. unfold sequence_numbers at 1. simpl flat_map.
  rewrite app_nil_r, Hchunk, seq_S, map_app. simpl. do 3 f_equal. lia.
Qed.

Ltac close_invariant :=
  unfold numbered, unopened, token_issued in *; simpl in *;
  repeat split; intros;
  repeat match goal with
         | H : Some _ = Some _ |- _ => inversion H; subst; clear H
         | H : None = None -> _ |- _ => specialize (H eq_refl)
         | H : exists _, _ |- _ => destruct H as [? [? ?]]
         | H : _ /\ _ |- _ => destruct H
         end;
  try discriminate; try congruence; try lia; auto;
  try (eapply numbered_snoc; [eassumption | eassumption | reflexivity]);
  try (eexists; split; eassumption).

Lemma process_message_invariant (self : Proc) algohdr seqhdr requesthdr request :
  numbered self -> token_issued self -> unopened self ->
  let dispatched := process_message algohdr seqhdr requesthdr request self in
  numbered (fst dispatched) /\ token_issued (fst dispatched) /\
  (snd dispatched = Returned tt -> unopened (fst dispatched)).
Proof.
  destruct self as [w nm se ch so q sq].
  intros Hn Ht Hu. 
  destruct request; unfold_methods; simpl; destruct se, ch; simpl; break_calls; simpl;
    close_invariant.
Qed.

Lemma open_secure_channel_invariant (self : Proc) body :
  numbered self -> token_issued self -> unopened self ->
  let opened := open_secure_channel body self in
  numbered (fst opened) /\ token_issued (fst opened) /\
  (snd opened = Returned tt -> unopened (fst opened)).
Proof.
  destruct self as [w nm se ch so q sq].
  intros Hn Ht Hu.
  destruct body as [hello|algohdr seqhdr [requesthdr [[] nonce lifetime]]|? ? ? ?|];
    unfold_methods; simpl; destruct ch; simpl; break_calls; simpl;
    close_invariant.
  all: try match goal with
       | H : forall ch, Some ?t = Some ch -> _ |- _ =>
           specialize (H t eq_refl); simpl in *; lia
       end.
  all: exists 1%nat; subst; split; [reflexivity|].
  all: rewrite sequence_numbers_app;
    match goal with H : sequence_numbers _ = [] |- _ => rewrite H end; reflexivity.
Qed.

Lemma process_body_invariant (self : Proc) header body :
  numbered self -> token_issued self -> unopened self ->
  let processed := process_body header body self in
  numbered (fst processed) /\ token_issued (fst processed) /\
  (snd processed = Returned true -> unopened (fst processed)).
Proof.
  intros Hn Ht Hu processed. subst processed. unfold process_body.
  destruct (ua.Header.MessageType header); simpl; auto.
  - pose proof (open_secure_channel_invariant self body Hn Ht Hu) as H.
    unfold bind. destruct (open_secure_channel body self) as [self' [[]|e]];
      simpl in *; intuition (auto; try discriminate).
  - unfold bind, gets, ret.
    destruct (channel_not_issued header (channel self)); simpl; auto.
  - destruct body as [?|? ? ?|algohdr seqhdr requesthdr request|];
      unfold bind, decode_message, ret, raise; simpl;
      try (repeat split; auto; discriminate).
    pose proof (process_message_invariant self (ua.Symmetric algohdr) seqhdr requesthdr
                  request Hn Ht Hu) as H.
    destruct (process_message (ua.Symmetric algohdr) seqhdr requesthdr request self)
      as [self' [[]|e]]; simpl in *; intuition (auto; try discriminate).
Qed.

Ltac exited :=
  unfold invariant; simpl;
  split; [assumption | split; [assumption | intros Hphase; exfalso; exact (Hphase eq_refl)]].

Lemma read_step_invariant (self : Proc) frame :
  numbered self -> token_issued self -> unopened self ->
  invariant W Session Data (after_step (read_step frame self)).
Proof.
  intros Hn Ht Hu. unfold read_step.
  destruct (ua.MessageType.eqb _ _).
  - exited.
  - unfold bind at 1. unfold receive_body.
    destruct (_ =? _); simpl.
    + pose proof (process_body_invariant self (ua.frame_header frame)
                    (ua.frame_body frame) Hn Ht Hu) as H.
      destruct (process_body (ua.frame_header frame) (ua.frame_body frame) self)
        as [self' [[]|e]]; simpl in *; unfold invariant; simpl;
        intuition (auto; try congruence).
    + exited.
Qed.

Lemma unnumbered_chunk_invariant (self : Proc) chunk :
  chunk_sequence_numbers chunk = [] ->
  numbered self -> token_issued self -> unopened self ->
  let self' := set_socket (socket self ++ [chunk]) self in
  numbered self' /\ token_issued self' /\ unopened self'.
Proof.
  intros Hchunk Hn Ht Hu. unfold numbered, token_issued, unopened in *. simpl.
  rewrite sequence_numbers_app. unfold sequence_numbers at 2 4. simpl.
  rewrite Hchunk, !app_nil_r. auto.
Qed.

Lemma hello_phase_invariant (self : Proc) frame :
  numbered self -> token_issued self -> unopened self ->
  invariant W Session Data (after_step (hello_phase frame self)).
Proof.
  intros Hn Ht Hu. unfold hello_phase.
  unfold bind at 1. unfold receive_body.
  destruct (_ =? _); simpl; [|exited].
  destruct (ua.MessageType.eqb _ _); simpl.
  - destruct (ua.frame_body frame); unfold decode_hello, bind, ret, raise; simpl;
      try exited.
    unfold invariant. simpl.
    match goal with
    | |- context [socket self ++ [?c]] =>
        destruct (unnumbered_chunk_invariant self c eq_refl Hn Ht Hu) as (? & ? & ?)
    end.
    auto.
  - unfold bind, write_socket, modify, ret. simpl. unfold invariant. simpl.
    match goal with
    | |- context [socket self ++ [?c]] =>
        destruct (unnumbered_chunk_invariant self c eq_refl Hn Ht Hu) as (? & ? & ?)
    end.
    auto.
Qed.

Lemma forward_publish_response_invariant (self : Proc) result :
  numbered self ->
  let forwarded := fst (forward_publish_response result self) in
  numbered forwarded /\
  (token_issued self -> token_issued forwarded) /\
  (unopened self -> unopened forwarded).
Proof.
  destruct self as [w nm se ch so q sq].
  intros Hn. unfold_methods; simpl.
  destruct q as [|slot q]; simpl; [auto|].
  destruct ch; simpl; close_invariant.
Qed.

Lemma step_invariant (c : Connection W Session Data) (e : Event Data) :
  invariant W Session Data c -> invariant W Session Data (step c e).
Proof.
  intros (Hn & Ht & Hu). destruct e as [frame| |result]; simpl.
  - destruct c as [self []]; simpl in *.
    + apply hello_phase_invariant; auto. apply Hu. discriminate.
    + apply read_step_invariant; auto. apply Hu. discriminate.
    + exited.
  - exited.
  - pose proof (forward_publish_response_invariant (processor c) result Hn)
      as (Hn' & Ht' & Hu').
    unfold invariant. simpl. auto.
Qed.

Lemma run_invariant (events : list (Event Data)) (c : Connection W Session Data) :
  invariant W Session Data c -> invariant W Session Data (run events c).
Proof.
  revert c. induction events as [|e events IH]; intros c Hc; simpl.
  - exact Hc.
  - apply IH, step_invariant, Hc.
Qed.

Lemma connect_invariant (internal_server : W) (name : string) :
  invariant W Session Data (connect internal_server name).
Proof. repeat split; simpl; auto; intros; discriminate. Qed.

(** *** Opening and renewing the secure channel *)

(** C6, as the code has it: a Renew needs a record to renew.  In any run,
    an OpenSecureChannel request that is an Issue, or a Renew of an
    existing channel, makes [_open_secure_channel] return the
    channel record, now with: a token id one above the previous one (13 for
    the fresh record of an Issue), hence changed by a renewal and never
    zero; the creation time just read from the clock; the revised lifetime
    exactly as requested; a new server nonce made of two random UUIDs, 32
    bytes long.  An Issue takes the channel id from [get_new_channel_id]; a
    Renew keeps it. *)
Theorem open_secure_channel_record (internal_server : W) (name : string)
    (events : list (Event Data)) (params : ua.OpenSecureChannelParameters.t) :
  let self : Proc := processor (run events (connect internal_server name)) in
  let requesttype := ua.OpenSecureChannelParameters.RequestType params in
  requesttype = ua.SecurityTokenRequestType.Issue \/ channel self <> None ->
  let allocated := InternalServer.get_new_channel_id (world self) in
  let timed :=
    datetime.now
      match requesttype with
      | ua.SecurityTokenRequestType.Issue => fst allocated
      | ua.SecurityTokenRequestType.Renew => world self
      end in
  let first := uuid.uuid4 (fst timed) in
  let second := uuid.uuid4 (fst first) in
  exists ch,
    _open_secure_channel params self =
    (set_channel (Some ch) (set_world (fst second) self), Returned ch) /\
    let token := ua.OpenSecureChannelResult.SecurityToken ch in
    ua.ChannelSecurityToken.TokenId token <> 0 /\
    (requesttype = ua.SecurityTokenRequestType.Issue ->
     ua.ChannelSecurityToken.TokenId token = 13 + 1 /\
     ua.ChannelSecurityToken.ChannelId token = snd allocated) /\
    (requesttype = ua.SecurityTokenRequestType.Renew ->
     forall old, channel self = Some old ->
       let previous := ua.OpenSecureChannelResult.SecurityToken old in
       ua.ChannelSecurityToken.TokenId token =
       ua.ChannelSecurityToken.TokenId previous + 1 /\
       ua.ChannelSecurityToken.TokenId token <>
       ua.ChannelSecurityToken.TokenId previous /\
       ua.ChannelSecurityToken.ChannelId token =
       ua.ChannelSecurityToken.ChannelId previous) /\
    ua.ChannelSecurityToken.CreatedAt token = snd timed /\
    ua.ChannelSecurityToken.RevisedLifetime token =
    ua.OpenSecureChannelParameters.RequestedLifetime params /\
    ua.OpenSecureChannelResult.ServerNonce ch =
    uuid.bytes (snd first) ++ uuid.bytes (snd second) /\
    (32 <= List.length (ua.OpenSecureChannelResult.ServerNonce ch))%nat.
Proof.
  intros self requesttype Hreq allocated timed first second.
  pose proof (run_invariant events _ (connect_invariant internal_server name))
    as (_ & Ht & _).
  fold self in Ht. clearbody self.
  subst allocated timed first second requesttype.
  destruct self as [w nm se ch so q sq]. unfold token_issued in Ht.
  unfold _open_secure_channel, with_channel, bind, gets, modify, call, ret.
  destruct params as [[] nonce lifetime]; cbn -[uuid.bytes] in *.
  - destruct (InternalServer.get_new_channel_id w) as [w1 id].
    cbn -[uuid.bytes]. destruct (datetime.now w1) as [w2 t].
    cbn -[uuid.bytes]. destruct (uuid.uuid4 w2) as [w3 u1].
    cbn -[uuid.bytes]. destruct (uuid.uuid4 w3) as [w4 u2].
    cbn -[uuid.bytes]. eexists. split; [reflexivity|].
    cbn -[uuid.bytes]. repeat split; try discriminate; try lia.
    rewrite length_app, !uuid_bytes_length. simpl. lia.
  - destruct Hreq as [Hreq|Hreq]; [discriminate|].
    destruct ch as [old|]; [|congruence].
    specialize (Ht old eq_refl).
    cbn -[uuid.bytes]. destruct (datetime.now w) as [w2 t].
    cbn -[uuid.bytes]. destruct (uuid.uuid4 w2) as [w3 u1].
    cbn -[uuid.bytes]. destruct (uuid.uuid4 w3) as [w4 u2].
    cbn -[uuid.bytes]. eexists. split; [reflexivity|].
    cbn -[uuid.bytes]. repeat split; try discriminate; try lia;
      try (intros; match goal with H : Some _ = Some _ |- _ => inversion H; subst end;
           simpl; lia).
    rewrite length_app, !uuid_bytes_length. simpl. lia.
Qed.

(** *** The publish queue *)

Lemma forward_publish_response_empty (self : Proc) result :
  _publishdata_queue self = [] ->
  forward_publish_response result self = (self, Returned tt).
Proof.
  intros Hq. unfold forward_publish_response, bind, gets. simpl. rewrite Hq.
  reflexivity.
Qed.

Lemma forward_publish_response_slot (self : Proc) ch slot rest result :
  channel self = Some ch ->
  _publishdata_queue self = slot :: rest ->
  forward_publish_response result self =
  (set_socket
     (socket self ++
      [response_chunk ch (ua.RequestHeader.RequestHandle (requesthdr slot))
         (algohdr slot) (seqhdr slot) (ua.new_response (ua.PublishResponse result))
         ua.MessageType.SecureMessage (_seq_number self)])
     (set_seq_number (_seq_number self + 1) (set_publishdata_queue rest self)),
   Returned tt).
Proof.
  intros Hch Hq. unfold forward_publish_response, bind, gets, modify. simpl.
  rewrite Hq. rewrite (send_response_channel _ ch) by exact Hch. reflexivity.
Qed.

Lemma forward_publish_response_no_channel (self : Proc) slot rest result :
  channel self = None ->
  _publishdata_queue self = slot :: rest ->
  forward_publish_response result self =
  (set_seq_number (_seq_number self + 1) (set_publishdata_queue rest self),
   Raised AttributeError).
Proof.
  intros Hch Hq. unfold forward_publish_response, bind, gets, modify. simpl.
  rewrite Hq. rewrite send_response_no_channel by exact Hch. reflexivity.
Qed.

Lemma forward_publish_response_queue (self : Proc) result :
  _publishdata_queue (fst (forward_publish_response result self)) =
  tl (_publishdata_queue self).
Proof.
  destruct (_publishdata_queue self) as [|slot rest] eqn:Hq.
  - rewrite forward_publish_response_empty by exact Hq. exact Hq.
  - destruct (channel self) as [ch|] eqn:Hch.
    + rewrite (forward_publish_response_slot self ch slot rest) by assumption.
      reflexivity.
    + rewrite (forward_publish_response_no_channel self slot rest) by assumption.
      reflexivity.
Qed.

Lemma forward_all_queue (results : list Data) (self : Proc) :
  _publishdata_queue (forward_all results self) =
  skipn (List.length results) (_publishdata_queue self).
Proof.
  revert self. induction results as [|result results IH]; intros self; [reflexivity|].
  change (forward_all (result :: results) self)
    with (forward_all results (fst (forward_publish_response result self))).
  rewrite IH, forward_publish_response_queue.
  destruct (_publishdata_queue self); simpl; [apply skipn_nil | reflexivity].
Qed.

Lemma forward_all_replies (results : list Data) (self : Proc) ch :
  channel self = Some ch ->
  replies (socket (forward_all results self)) =
  replies (socket self) ++
  fifo_pairing (_publishdata_queue self) results (_seq_number self).
Proof.
  revert self. induction results as [|result results IH]; intros self Hch.
  - simpl. destruct (_publishdata_queue self); rewrite app_nil_r; reflexivity.
  - change (forward_all (result :: results) self)
      with (forward_all results (fst (forward_publish_response result self))).
    destruct (_publishdata_queue self) as [|slot rest] eqn:Hq.
    + rewrite forward_publish_response_empty by exact Hq. cbn [fst].
      rewrite (IH self Hch), Hq. destruct results; reflexivity.
    + rewrite (forward_publish_response_slot self ch slot rest) by assumption.
      match goal with
      | |- context [response_chunk ?a ?b ?c ?d ?e ?f ?g] =>
          pose proof (response_chunk_reply a b c d e f g) as Hchunk;
          remember (response_chunk a b c d e f g) as chunk
      end.
      cbn [fst]. rewrite IH by exact Hch. simpl.
      rewrite replies_app. unfold replies at 2. simpl flat_map.
      rewrite Hchunk, app_nil_r, <- app_assoc. reflexivity.
Qed.

(** C5: publish callbacks use the slots first in, first out.  The k-th
    callback pops the k-th oldest outstanding slot (callbacks beyond the
    last slot pop nothing), and on an open channel it writes a
    PublishResponse with that slot's request handle, the callback's result
    as Parameters and the next sequence number.  So slots with handles 20
    then 21 and results N1 then N2 give PublishResponse(20, N1) then
    PublishResponse(21, N2). *)
Theorem publish_responses_fifo (self : Proc) (results : list Data) :
  let self' := forward_all results self in
  _publishdata_queue self' = skipn (List.length results) (_publishdata_queue self) /\
  (forall ch, channel self = Some ch ->
     replies (socket self') =
     replies (socket self) ++
     fifo_pairing (_publishdata_queue self) results (_seq_number self)).
Proof.
  split.
  - apply forward_all_queue.
  - intros ch Hch. apply (forward_all_replies results self ch Hch).
Qed.

Lemma processor_after_step (r : Proc * Outcome bool) :
  processor (after_step r) = fst r.
Proof. destruct r as [self [[]|e]]; reflexivity. Qed.

Lemma hello_phase_queue (self : Proc) frame :
  _publishdata_queue (fst (hello_phase frame self)) = _publishdata_queue self.
Proof.
  unfold hello_phase, receive_body, decode_hello, write_socket, bind, modify, ret, raise.
  destruct (_ =? _); simpl; [|reflexivity].
  destruct (ua.MessageType.eqb _ _); simpl; [|reflexivity].
  destruct (ua.frame_body frame); reflexivity.
Qed.

Lemma publish_request_pushes (self : Proc) algohdr seqhdr requesthdr acks :
  let dispatched :=
    process_message algohdr seqhdr requesthdr (ua.PublishRequest acks) self in
  _publishdata_queue (fst dispatched) =
  _publishdata_queue self ++ [BuildPublishRequestData requesthdr algohdr seqhdr] /\
  socket (fst dispatched) = socket self /\
  _seq_number (fst dispatched) = _seq_number self.
Proof.
  unfold process_message, with_session, bind, gets, modify, call_, raise. simpl.
  destruct (session self); simpl; auto.
Qed.

Lemma read_step_queue (self : Proc) frame :
  List.length (_publishdata_queue (fst (read_step frame self))) =
  (List.length (_publishdata_queue self) +
   if is_publish_request (BuildConnection self Reading) (Receive frame) then 1 else 0)%nat.
Proof.
  destruct frame as [[msgtype chunktype channelid size] received body].
  destruct self as [w nm se ch so q sq].
  unfold read_step, is_publish_request, process_body. simpl.
  destruct msgtype; simpl; try (rewrite Nat.add_0_r; reflexivity);
    unfold receive_body, bind at 1; simpl;
    destruct (size =? received); simpl; try (rewrite Nat.add_0_r; reflexivity).
  - destruct body as [?|algohdr seqhdr [requesthdr [[] nonce lifetime]]|? ? ? ?|];
      unfold_methods; simpl; destruct ch; simpl; break_calls; simpl;
      rewrite Nat.add_0_r; reflexivity.
  - unfold bind, gets, ret. simpl.
    destruct (channel_not_issued _ _); simpl; rewrite Nat.add_0_r; reflexivity.
  - destruct body as [?|? ? ?|algohdr seqhdr requesthdr request|];
      try (unfold_methods; simpl; rewrite Nat.add_0_r; reflexivity).
    destruct request; unfold_methods; simpl; destruct se, ch; simpl; break_calls; simpl;
      rewrite ?length_app; simpl; try rewrite Nat.add_0_r; reflexivity.
Qed.

Lemma step_queue (c : Connection W Session Data) (e : Event Data) :
  (List.length (_publishdata_queue (processor (step c e))) +
   (if is_publish_response c e then 1 else 0) =
   List.length (_publishdata_queue (processor c)) +
   (if is_publish_request c e then 1 else 0))%nat.
Proof.
  destruct c as [self ph]. destruct e as [frame| |result].
  - assert (Hpop : is_publish_response (BuildConnection self ph) (Receive frame) = false)
      by reflexivity.
    rewrite Hpop, Nat.add_0_r.
    destruct ph; unfold step; cbn [phase processor].
    + rewrite processor_after_step, hello_phase_queue.
      change (is_publish_request _ _) with false. cbv iota. lia.
    + rewrite processor_after_step. apply read_step_queue.
    + change (is_publish_request _ _) with false. cbv iota. lia.
  - simpl. unfold is_publish_response. simpl. lia.
  - unfold is_publish_response, is_publish_request. simpl.
    destruct (_publishdata_queue self) as [|slot rest] eqn:Hq.
    + rewrite forward_publish_response_empty by exact Hq. simpl. rewrite Hq. reflexivity.
    + destruct (channel self) as [ch|] eqn:Hch.
      * rewrite (forward_publish_response_slot self ch slot rest) by assumption.
        simpl. lia.
      * rewrite (forward_publish_response_no_channel self slot rest) by assumption.
        simpl. lia.
Qed.

Lemma run_queue (events : list (Event Data)) (c : Connection W Session Data) :
  (List.length (_publishdata_queue (processor (run events c))) + popped events c =
   List.length (_publishdata_queue (processor c)) + pushed events c)%nat.
Proof.
  revert c. induction events as [|e events IH]; intros c.
  - unfold popped, pushed. simpl. lia.
  - unfold popped, pushed in *. cbn [count_events].
    change (run (e :: events) c) with (run events (step c e)).
    pose proof (IH (step c e)). pose proof (step_queue c e). lia.
Qed.

(** C4: a PublishRequest handed to [process_message] appends exactly one
    slot, holding the request header, the algorithm header and the sequence
    header of the request, and writes nothing to the socket; a publish
    callback that finds the queue non-empty removes exactly its head; one
    that finds it empty returns with the processor unchanged and nothing
    written; so in every run the length of the queue is the number of
    pushes minus the number of pops. *)
Theorem publish_queue_accounting :
  (forall (self : Proc) algohdr seqhdr requesthdr acks,
     let dispatched :=
       process_message algohdr seqhdr requesthdr (ua.PublishRequest acks) self in
     _publishdata_queue (fst dispatched) =
     _publishdata_queue self ++ [BuildPublishRequestData requesthdr algohdr seqhdr] /\
     socket (fst dispatched) = socket self) /\
  (forall (self : Proc) slot rest result,
     _publishdata_queue self = slot :: rest ->
     _publishdata_queue (fst (forward_publish_response result self)) = rest) /\
  (forall (self : Proc) result,
     _publishdata_queue self = [] ->
     forward_publish_response result self = (self, Returned tt)) /\
  (forall (internal_server : W) (name : string) (events : list (Event Data)),
     let c := connect internal_server name in
     Z.of_nat (List.length (_publishdata_queue (processor (run events c)))) =
     Z.of_nat (pushed events c) - Z.of_nat (popped events c)).
Proof.
  repeat split.
  - apply publish_request_pushes.
  - apply publish_request_pushes.
  - intros self slot rest result Hq.
    destruct (channel self) as [ch|] eqn:Hch.
    + rewrite (forward_publish_response_slot self ch slot rest) by assumption.
      reflexivity.
    + rewrite (forward_publish_response_no_channel self slot rest) by assumption.
      reflexivity.
  - intros self result. apply forward_publish_response_empty.
  - intros internal_server name events c.
    pose proof (run_queue events c) as H. simpl in H. lia.
Qed.

(** *** [loop] is a run without callbacks *)

Lemma run_exited (stream : list (ua.Frame Data)) (self : Proc) :
  processor (run (map Receive stream ++ [EndOfStream]) (BuildConnection self Exited)) =
  self.
Proof. induction stream as [|frame stream IH]; [reflexivity | exact IH]. Qed.

Lemma loop_while_run (stream : list (ua.Frame Data)) (self : Proc) :
  fst (loop_while stream self) =
  processor (run (map Receive stream ++ [EndOfStream]) (BuildConnection self Reading)).
Proof.
  revert self. induction stream as [|frame stream IH]; intros self; [reflexivity|].
  change (run (map Receive (frame :: stream) ++ [EndOfStream])
            (BuildConnection self Reading))
    with (run (map Receive stream ++ [EndOfStream]) (after_step (read_step frame self))).
  cbn [loop_while]. unfold read_step.
  destruct (ua.MessageType.eqb _ _).
  - cbn [after_step ret]. rewrite run_exited. reflexivity.
  - unfold bind. destruct (receive_body frame self) as [self1 [body|e]].
    + destruct (process_body (ua.frame_header frame) body self1)
        as [self2 [[]|e]]; cbn [after_step].
      * apply IH.
      * rewrite run_exited. reflexivity.
      * rewrite run_exited. reflexivity.
    + cbn [after_step]. rewrite run_exited. reflexivity.
Qed.

Lemma loop_run (frame : ua.Frame Data) (stream : list (ua.Frame Data)) (self : Proc) :
  fst (loop (frame :: stream) self) =
  processor (run (map Receive (frame :: stream) ++ [EndOfStream])
               (BuildConnection self AwaitingHello)).
Proof.
  change (run (map Receive (frame :: stream) ++ [EndOfStream])
            (BuildConnection self AwaitingHello))
    with (run (map Receive stream ++ [EndOfStream]) (after_step (hello_phase frame self))).
  unfold loop, bind.
  destruct (hello_phase frame self) as [self1 [[]|e]]; cbn [after_step].
  - apply loop_while_run.
  - rewrite run_exited. reflexivity.
  - rewrite run_exited. reflexivity.
Qed.

(** *** Outgoing sequence numbers *)

Lemma numbered_sent (self : Proc) :
  numbered self ->
  let sent := sequence_numbers (socket self) in
  sent = map Z.of_nat (seq 1 (List.length sent)) /\
  (channel self <> None -> _seq_number self = Z.of_nat (List.length sent) + 1).
Proof.
  intros Hn sent. unfold numbered in Hn. subst sent.
  destruct (channel self) as [ch|].
  - destruct Hn as (n & Hseq & Hsent).
    rewrite Hsent, length_map, length_seq. split; [reflexivity|].
    intros _. exact Hseq.
  - rewrite Hn. split; [reflexivity|]. congruence.
Qed.

(** C1: the counter starts at 1; every call of [send_response] stamps the
    sequence header with the counter and adds exactly 1 to the counter; and
    in every run of a connection (frames read by the loop, publish callbacks
    at any time, before or after the loop ends) the sequence numbers written
    to the socket, over all kinds of reply, are 1, 2, 3, ... in this order:
    no gap and no duplicate, the counter being the next number.  The same
    holds of [loop] on any stream of frames. *)
Theorem outgoing_sequence_numbers (internal_server : W) (name : string)
    (events : list (Event Data)) (stream : list (ua.Frame Data)) :
  _seq_number (__init__ internal_server name : Proc) = 1 /\
  (forall (self : Proc) requesthandle algohdr seqhdr response msgtype,
     let sent := fst (send_response requesthandle algohdr seqhdr response msgtype self) in
     _seq_number sent = _seq_number self + 1 /\
     (channel self <> None ->
      sequence_numbers (socket sent) =
      sequence_numbers (socket self) ++ [_seq_number self]) /\
     (channel self = None -> socket sent = socket self)) /\
  (let self := processor (run events (connect internal_server name)) in
   let sent := sequence_numbers (socket self) in
   sent = map Z.of_nat (seq 1 (List.length sent)) /\
   (channel self <> None -> _seq_number self = Z.of_nat (List.length sent) + 1)) /\
  (let sent :=
     sequence_numbers (socket (fst (loop stream (__init__ internal_server name)))) in
   sent = map Z.of_nat (seq 1 (List.length sent))).
Proof.
  split; [reflexivity|]. split; [|split].
  - intros self requesthandle algohdr seqhdr response msgtype sent. subst sent.
    destruct (channel self) as [ch|] eqn:Hch.
    + rewrite (send_response_channel self ch) by exact Hch. simpl.
      repeat split; try congruence.
      intros _. rewrite sequence_numbers_app. reflexivity.
    + rewrite send_response_no_channel by exact Hch. simpl.
      repeat split; congruence.
  - apply numbered_sent.
    apply (run_invariant events _ (connect_invariant internal_server name)).
  - destruct stream as [|frame stream]; [reflexivity|].
    rewrite loop_run. apply numbered_sent.
    apply (run_invariant _ _ (connect_invariant internal_server name)).
Qed.

(** *** The session scenario *)

(** C8, as the code has it: after the Hello exchange and the opening of a
    channel, CreateSessionRequest(handle 7), ActivateSessionRequest(handle 8)
    and CloseSessionRequest(handle 9) are answered, in this order, by
    CreateSessionResponse, ActivateSessionResponse and CloseSessionResponse
    with request handles 7, 8, 9 and sequence numbers 2, 3, 4: the reply to
    the SecureOpen took sequence number 1 from the same counter. *)
Theorem session_scenario_replies (internal_server : W) (name : string)
    (hello : ua.Hello.t) (channelid : option Z) (n1 n2 n3 n4 n5 : Z)
    (asym : ua.AsymmetricAlgorithmHeader.t) (s0 s1 s2 s3 : ua.SequenceHeader.t)
    (handle : Z) (nonce : list Byte.byte) (lifetime : Z)
    (a1 a2 a3 : ua.SymmetricAlgorithmHeader.t) (create activate : Data)
    (deletesubs : bool) :
  let stream :=
    [whole ua.MessageType.Hello None n1 (ua.HelloBody hello);
     issue channelid n2 asym s0 handle nonce lifetime;
     service channelid n3 a1 s1 7 (ua.CreateSessionRequest create);
     service channelid n4 a2 s2 8 (ua.ActivateSessionRequest activate);
     service channelid n5 a3 s3 9 (ua.CloseSessionRequest deletesubs)] in
  let outcome := loop stream (__init__ internal_server name : Proc) in
  exists ch sessiondata result,
    snd outcome = Returned tt /\
    replies (socket (fst outcome)) =
    [(ua.MessageType.SecureOpen, handle, 1, ua.OpenSecureChannelResponse ch);
     (ua.MessageType.SecureMessage, 7, 2, ua.CreateSessionResponse sessiondata);
     (ua.MessageType.SecureMessage, 8, 3,
      ua.ActivateSessionResponse (ua.SessionResult result));
     (ua.MessageType.SecureMessage, 9, 4, ua.CloseSessionResponse)].
Proof.
  intros stream outcome. subst outcome stream.
  unfold loop, hello_phase, loop_while, process_body, service, issue, whole, __init__.
  unfold_methods. cbn -[uuid.bytes].
  rewrite !Z.eqb_refl.
  repeat (cbn -[uuid.bytes];
          match goal with
          | |- context [let (_, _) := ?x in _] =>
              lazymatch x with
              | context [let (_, _) := _ in _] => fail
              | context [match _ with _ => _ end] => fail
              | _ => destruct x
              end
          end).
  cbn -[uuid.bytes]. do 3 eexists. split; reflexivity.
Qed.

(** *** Publish callbacks after the read loop *)

(** C9, as the code has it: the processor has no closed flag, and the end of
    the read loop (end of stream, or a SecureClose that makes
    [process_body] return [False]) leaves the publish queue, the channel
    record and every other field as they were.  A publish callback behaves
    after that as at any other time: it is a no-op only when the queue is
    empty; with a slot queued and a channel record it removes the slot and
    writes the PublishResponse to the socket under the next sequence
    number. *)
Theorem publish_callback_after_exit (self : Proc) (result : Data) :
  loop_while [] self = (self, Returned tt) /\
  (forall header body stream,
     ua.Header.MessageType header = ua.MessageType.SecureClose ->
     process_body header body self = (self, Returned false) ->
     loop_while (ua.BuildFrame header (ua.Header.body_size header) body :: stream) self =
     (self, Returned tt)) /\
  (_publishdata_queue self = [] ->
   forward_publish_response result self = (self, Returned tt)) /\
  (forall slot rest ch,
     _publishdata_queue self = slot :: rest ->
     channel self = Some ch ->
     forward_publish_response result self =
     (set_socket
        (socket self ++
         [response_chunk ch (ua.RequestHeader.RequestHandle (requesthdr slot))
            (algohdr slot) (seqhdr slot) (ua.new_response (ua.PublishResponse result))
            ua.MessageType.SecureMessage (_seq_number self)])
        (set_seq_number (_seq_number self + 1) (set_publishdata_queue rest self)),
      Returned tt)).
Proof.
  split; [reflexivity|]. split.
  - intros header body stream Htype Hbody. apply loop_while_stops; assumption.
  - split.
    + apply forward_publish_response_empty.
    + intros slot rest ch Hq Hch. apply forward_publish_response_slot; assumption.
Qed.

(** ** The rest of the processor *)

(** *** Writing and reading frames *)

Lemma add_sizes (args : list (ua.Part Data)) (hdr : ua.Header.t) :
  fold_left (fun h arg => ua.Header.add_size h (codec.to_binary_size arg)) args hdr =
  ua.Header.Build (ua.Header.MessageType hdr) (ua.Header.ChunkType hdr)
    (ua.Header.ChannelId hdr) (ua.Header.body_size hdr + parts_size args).
Proof.
  revert hdr. induction args as [|arg args IH]; intros hdr.
  - simpl. rewrite Z.add_0_r. destruct hdr; reflexivity.
  - simpl. rewrite IH. simpl. f_equal. lia.
Qed.

(** The chunk [write_socket] appends: the parts in the order given, under
    the header it was handed with its size grown by that of the parts. *)
Lemma write_socket_chunk (hdr : ua.Header.t) (args : list (ua.Part Data))
    (self : Proc) :
  write_socket hdr args self =
  (set_socket
     (socket self ++
      [ua.BuildChunk
         (ua.Header.Build (ua.Header.MessageType hdr) (ua.Header.ChunkType hdr)
            (ua.Header.ChannelId hdr) (ua.Header.body_size hdr + parts_size args))
         args])
     self,
   Returned tt).
Proof.
  unfold write_socket, modify. rewrite add_sizes. reflexivity.
Qed.

(** A frame whose body arrives short (or long) is fatal and silent:
    [receive_body] raises before anything looks at the body.  In the read
    loop the exception leaves the processor as it was and the rest of the
    stream unread; as first frame it does so whatever the message type, so
    an incomplete non-Hello frame gets no Error header back. *)
Theorem incomplete_frame_raises (frame : ua.Frame Data)
    (stream : list (ua.Frame Data)) (self : Proc) :
  ua.Header.body_size (ua.frame_header frame) <> ua.frame_received frame ->
  loop (frame :: stream) self = (self, Raised ReceiveError) /\
  (ua.Header.MessageType (ua.frame_header frame) <> ua.MessageType.Error ->
   loop_while (frame :: stream) self = (self, Raised ReceiveError)).
Proof.
  intros Hsize. apply Z.eqb_neq in Hsize. split.
  - unfold loop, hello_phase, receive_body, bind, raise. rewrite Hsize. reflexivity.
  - intros Htype. cbn [loop_while].
    destruct (ua.Header.MessageType (ua.frame_header frame)); try congruence;
      unfold receive_body, bind, raise; simpl; rewrite Hsize; reflexivity.
Qed.

(** In the read loop an Error frame ends the loop at once, before its body
    is read (so even when the body is incomplete), and a Hello or
    Acknowledge frame received whole is skipped: the loop goes on with the
    next frame.  Neither changes the processor or writes anything. *)
Theorem frames_outside_the_channel (frame : ua.Frame Data)
    (stream : list (ua.Frame Data)) (self : Proc) :
  (ua.Header.MessageType (ua.frame_header frame) = ua.MessageType.Error ->
   loop_while (frame :: stream) self = (self, Returned tt)) /\
  (ua.Header.body_size (ua.frame_header frame) = ua.frame_received frame ->
   ua.Header.MessageType (ua.frame_header frame) = ua.MessageType.Hello \/
   ua.Header.MessageType (ua.frame_header frame) = ua.MessageType.Acknowledge ->
   loop_while (frame :: stream) self = loop_while stream self).
Proof.
  split.
  - intros Htype. cbn [loop_while]. rewrite Htype. reflexivity.
  - intros Hsize Htype. cbn [loop_while].
    unfold receive_body, process_body, bind, ret.
    rewrite Hsize, Z.eqb_refl.
    destruct Htype as [Htype|Htype]; rewrite Htype; reflexivity.
Qed.

(** *** Opening the channel *)

(** A Renew that meets no channel record raises [AttributeError] before it
    writes anything: the processor is unchanged (the counter too, no channel
    id is allocated), no reply is sent, and the read loop dies on that
    frame. *)
Theorem renew_without_channel (self : Proc) (params : ua.OpenSecureChannelParameters.t)
    header algohdr seqhdr requesthdr (stream : list (ua.Frame Data)) :
  channel self = None ->
  ua.OpenSecureChannelParameters.RequestType params = ua.SecurityTokenRequestType.Renew ->
  ua.Header.MessageType header = ua.MessageType.SecureOpen ->
  let body :=
    ua.OpenSecureChannelBody algohdr seqhdr
      (ua.OpenSecureChannelRequest.Build requesthdr params) in
  _open_secure_channel params self = (self, Raised AttributeError) /\
  process_body header body self = (self, Raised AttributeError) /\
  loop_while (ua.BuildFrame header (ua.Header.body_size header) body :: stream) self =
  (self, Raised AttributeError).
Proof.
  intros Hch Hrenew Htype body.
  assert (Hopen : _open_secure_channel params self = (self, Raised AttributeError)).
  { unfold _open_secure_channel, with_channel, bind, gets, ret, raise.
    rewrite Hrenew. simpl. rewrite Hch. reflexivity. }
  assert (Hbody : process_body header body self = (self, Raised AttributeError)).
  { unfold process_body. rewrite Htype.
    unfold open_secure_channel, decode_open_secure_channel, bind, ret. simpl.
    rewrite Hopen. reflexivity. }
  repeat split; trivial.
  cbn [loop_while]. simpl. rewrite Htype. simpl.
  unfold bind, receive_body. simpl. rewrite Z.eqb_refl. unfold ret at 1.
  rewrite Hbody. reflexivity.
Qed.

(** *** Every handler ends in at most one [send_response] *)

Ltac run_calls :=
  repeat (cbn -[send_response uuid.bytes];
          match goal with
          | |- context [let (_, _) := ?x in _] =>
              lazymatch x with
              | context [let (_, _) := _ in _] => fail
              | context [match _ with _ => _ end] => fail
              | context [send_response] => fail
              | _ => destruct x
              end
          end).

Lemma process_message_normal_form (self : Proc) algohdr seqhdr requesthdr request :
  let out := process_message algohdr seqhdr requesthdr request self in
  (socket (fst out) = socket self /\
   channel (fst out) = channel self /\
   _seq_number (fst out) = _seq_number self /\
   session (fst out) = session self /\
   (requires_session request = true /\ session self = None /\
    snd out = Raised AttributeError
    \/ exists acks sess, request = ua.PublishRequest acks /\ session self = Some sess /\
                         snd out = Returned tt))
  \/
  (exists self1 response,
     socket self1 = socket self /\
     channel self1 = channel self /\
     _seq_number self1 = _seq_number self /\
     _publishdata_queue self1 = _publishdata_queue self /\
     (session self1 = session self \/
      (exists params, request = ua.CreateSessionRequest params) /\ session self1 <> None) /\
     (forall acks, request <> ua.PublishRequest acks) /\
     (requires_session request = true -> session self <> None) /\
     out = send_response (ua.RequestHeader.RequestHandle requesthdr) algohdr seqhdr
             response ua.MessageType.SecureMessage self1).
Proof.
  destruct self as [w nm se ch so q sq].
  destruct request;
    unfold process_message, session_service, with_session, bind, gets, modify, call,
      call_, ret, raise;
    cbn -[send_response]; destruct se; run_calls;
    try (right; do 2 eexists;
         repeat match goal with |- _ /\ _ => split end;
         [..|reflexivity]; cbn; try reflexivity; try discriminate;
         try (left; reflexivity); try (intros; discriminate);
         try (right; split; [eexists; reflexivity | discriminate]));
    try (left; cbn; repeat split; left; repeat split; reflexivity);
    try (left; cbn; repeat split; right; do 2 eexists; repeat split; reflexivity).
Qed.

Lemma response_chunk_well_formed ch requesthandle algohdr seqhdr
    (response : ua.Response Data) msgtype n :
  well_formed (response_chunk ch requesthandle algohdr seqhdr response msgtype n).
Proof.
  unfold well_formed, response_chunk. cbn [ua.chunk_header ua.chunk_parts].
  rewrite add_sizes. split; reflexivity.
Qed.

Lemma response_chunk_is_reply ch requesthandle algohdr seqhdr
    (response : ua.Response Data) msgtype n :
  msgtype = ua.MessageType.SecureOpen \/ msgtype = ua.MessageType.SecureMessage ->
  is_reply (response_chunk ch requesthandle algohdr seqhdr response msgtype n) = true.
Proof.
  unfold is_reply, response_chunk. cbn [ua.chunk_header ua.chunk_parts].
  rewrite add_sizes. intros [H|H]; subst; reflexivity.
Qed.

Lemma appends_replies_refl (self self' : Proc) :
  socket self' = socket self -> appends_replies self self'.
Proof.
  intros H. exists []. rewrite app_nil_r. repeat split; auto.
Qed.

Lemma send_response_effect (self : Proc) requesthandle algohdr seqhdr response msgtype :
  msgtype = ua.MessageType.SecureOpen \/ msgtype = ua.MessageType.SecureMessage ->
  let sent := fst (send_response requesthandle algohdr seqhdr response msgtype self) in
  channel sent = channel self /\ session sent = session self /\
  _publishdata_queue sent = _publishdata_queue self /\ world sent = world self /\
  appends_replies self sent.
Proof.
  intros Hmsg sent. subst sent.
  destruct (channel self) as [ch|] eqn:Hch.
  - rewrite (send_response_channel self ch) by exact Hch. simpl.
    repeat split; auto.
    eexists [_]. split; [reflexivity|]. split.
    + constructor; [apply response_chunk_well_formed | constructor].
    + simpl. rewrite response_chunk_is_reply by exact Hmsg. reflexivity.
  - rewrite send_response_no_channel by exact Hch. simpl.
    repeat split; auto. apply appends_replies_refl. reflexivity.
Qed.

Lemma appends_replies_trans (a b c : Proc) :
  appends_replies a b -> appends_replies b c -> appends_replies a c.
Proof.
  intros (l1 & H1 & W1 & R1) (l2 & H2 & W2 & R2).
  exists (l1 ++ l2). rewrite H2, H1, <- app_assoc. repeat split.
  - apply Forall_app. split; assumption.
  - rewrite forallb_app, R1, R2. reflexivity.
Qed.

Lemma _open_secure_channel_effect (self : Proc) params :
  let out := _open_secure_channel params self in
  socket (fst out) = socket self /\ session (fst out) = session self /\
  _publishdata_queue (fst out) = _publishdata_queue self /\
  _seq_number (fst out) = _seq_number self /\
  match snd out with
  | Returned ch => channel (fst out) = Some ch
  | Raised _ => fst out = self /\ channel self = None
  end.
Proof.
  destruct self as [w nm se ch so q sq].
  destruct params as [[] nonce lifetime];
    unfold _open_secure_channel, with_channel, bind, gets, modify, call, ret, raise;
    cbn -[uuid.bytes]; try destruct ch; run_calls; repeat split.
Qed.

Lemma open_secure_channel_effect (self : Proc) body :
  let out := open_secure_channel body self in
  session (fst out) = session self /\
  _publishdata_queue (fst out) = _publishdata_queue self /\
  (channel self <> None -> channel (fst out) <> None) /\
  (snd out = Returned tt -> channel (fst out) <> None) /\
  appends_replies self (fst out).
Proof.
  intros out. subst out. unfold open_secure_channel.
  destruct body as [?|algohdr seqhdr request|? ? ? ?|];
    unfold decode_open_secure_channel, bind, ret, raise; cbn -[_open_secure_channel send_response];
    try (repeat split; auto; try discriminate; apply appends_replies_refl; reflexivity).
  pose proof (_open_secure_channel_effect self
                (ua.OpenSecureChannelRequest.Parameters request)) as H.
  cbv zeta in H.
  destruct (_open_secure_channel (ua.OpenSecureChannelRequest.Parameters request) self)
    as [self1 [ch|e]]; cbn [fst snd] in *.
  - destruct H as (Hso & Hse & Hq & Hsq & Hch).
    match goal with
    | |- context [send_response ?h ?a ?s ?r ?m self1] =>
        pose proof (send_response_effect self1 h a s r m (or_introl eq_refl))
          as (Hch' & Hse' & Hq' & _ & Happ)
    end.
    cbv zeta in *. repeat split; try congruence.
    apply (appends_replies_trans self self1); [apply appends_replies_refl; exact Hso|].
    exact Happ.
  - destruct H as (_ & _ & _ & _ & Hself & Hnone). subst self1.
    repeat split; auto; try discriminate. apply appends_replies_refl. reflexivity.
Qed.

Lemma process_message_effect (self : Proc) algohdr seqhdr requesthdr request :
  let out := process_message algohdr seqhdr requesthdr request self in
  channel (fst out) = channel self /\
  (session self <> None -> session (fst out) <> None) /\
  appends_replies self (fst out).
Proof.
  intros out. subst out.
  destruct (process_message_normal_form self algohdr seqhdr requesthdr request)
    as [(Hso & Hch & _ & Hse & _)|(self1 & response & Hso & Hch & _ & _ & Hse & _ & _ & Heq)].
  - repeat split; [exact Hch | congruence | apply appends_replies_refl; exact Hso].
  - rewrite Heq.
    match goal with
    | |- context [send_response ?h ?a ?s ?r ?m self1] =>
        pose proof (send_response_effect self1 h a s r m (or_intror eq_refl))
          as (Hch' & Hse' & _ & _ & Happ)
    end.
    cbv zeta in *. repeat split.
    + congruence.
    + intros Hbound. rewrite Hse'. destruct Hse as [Hse|[_ Hse]]; congruence.
    + apply (appends_replies_trans self self1);
        [apply appends_replies_refl; exact Hso | exact Happ].
Qed.

Lemma process_body_effect (self : Proc) header body :
  let out := process_body header body self in
  (channel self <> None -> channel (fst out) <> None) /\
  (session self <> None -> session (fst out) <> None) /\
  appends_replies self (fst out).
Proof.
  intros out. subst out. unfold process_body.
  destruct (ua.Header.MessageType header);
    try (repeat split; auto; apply appends_replies_refl; reflexivity).
  - pose proof (open_secure_channel_effect self body) as (Hse & _ & Hch & _ & Happ).
    unfold bind. destruct (open_secure_channel body self) as [self1 [[]|e]];
      cbn [fst snd ret] in *; repeat split; auto; congruence.
  - unfold bind, gets, ret. destruct (channel_not_issued header (channel self));
      repeat split; auto; apply appends_replies_refl; reflexivity.
  - destruct body as [?|? ? ?|algohdr seqhdr requesthdr request|];
      unfold bind, decode_message, ret, raise; cbn -[process_message];
      try (repeat split; auto; apply appends_replies_refl; reflexivity).
    pose proof (process_message_effect self (ua.Symmetric algohdr) seqhdr requesthdr request)
      as (Hch & Hse & Happ).
    destruct (process_message (ua.Symmetric algohdr) seqhdr requesthdr request self)
      as [self1 [[]|e]]; cbn [fst snd] in *; repeat split; auto; congruence.
Qed.

Lemma read_step_effect (self : Proc) frame :
  let out := read_step frame self in
  (channel self <> None -> channel (fst out) <> None) /\
  (session self <> None -> session (fst out) <> None) /\
  appends_replies self (fst out).
Proof.
  intros out. subst out. unfold read_step.
  destruct (ua.MessageType.eqb _ _);
    [repeat split; auto; apply appends_replies_refl; reflexivity|].
  unfold bind, receive_body. destruct (_ =? _);
    [|repeat split; auto; apply appends_replies_refl; reflexivity].
  cbn [ret]. apply process_body_effect.
Qed.

Lemma forward_publish_response_effect (self : Proc) result :
  let forwarded := fst (forward_publish_response result self) in
  channel forwarded = channel self /\ session forwarded = session self /\
  appends_replies self forwarded.
Proof.
  intros forwarded. subst forwarded.
  destruct (_publishdata_queue self) as [|slot rest] eqn:Hq.
  - rewrite forward_publish_response_empty by exact Hq.
    repeat split. apply appends_replies_refl. reflexivity.
  - destruct (channel self) as [ch|] eqn:Hch.
    + rewrite (forward_publish_response_slot self ch slot rest) by assumption.
      cbn [fst]. repeat split; [exact Hch|].
      eexists [_]. split; [reflexivity|]. split.
      * constructor; [apply response_chunk_well_formed | constructor].
      * cbn [forallb]. rewrite response_chunk_is_reply by (right; reflexivity).
        reflexivity.
    + rewrite (forward_publish_response_no_channel self slot rest) by assumption.
      cbn [fst]. repeat split; [exact Hch|].
      apply appends_replies_refl. reflexivity.
Qed.

Lemma hello_phase_effect (self : Proc) frame :
  let out := hello_phase frame self in
  channel (fst out) = channel self /\ session (fst out) = session self /\
  (socket (fst out) = socket self /\ (forall b, snd out <> Returned b)
   \/ (exists chunk, socket (fst out) = socket self ++ [chunk] /\
                     is_error chunk = true /\ well_formed chunk /\
                     snd out = Returned false)
   \/ (exists chunk, socket (fst out) = socket self ++ [chunk] /\
                     is_acknowledge chunk = true /\ well_formed chunk /\
                     snd out = Returned true)).
Proof.
  intros out. subst out. unfold hello_phase, receive_body, bind.
  destruct (_ =? _); cbn [ret raise];
    [|repeat split; left; split; [reflexivity | intros; discriminate]].
  destruct (ua.MessageType.eqb _ _); cbn [negb].
  - destruct (ua.frame_body frame); unfold decode_hello; cbn [ret raise];
      try (repeat split; left; split; [reflexivity | intros; discriminate]).
    rewrite write_socket_chunk. cbn.
    repeat split. right. right. eexists. split; [reflexivity|].
    repeat split.
  - rewrite write_socket_chunk. cbn.
    repeat split. right. left. eexists. split; [reflexivity|].
    repeat split.
Qed.

(** *** What never happens in a run *)

Lemma step_keeps_bindings (c : Connection W Session Data) (e : Event Data) :
  (channel (processor c) <> None -> channel (processor (step c e)) <> None) /\
  (session (processor c) <> None -> session (processor (step c e)) <> None) /\
  appends_replies (processor c) (processor (step c e))
  \/ phase c = AwaitingHello.
Proof.
  destruct c as [self ph]. destruct e as [frame| |result].
  - destruct ph; [right; reflexivity| |].
    + left. unfold step. cbn [phase processor]. rewrite processor_after_step.
      apply read_step_effect.
    + left. cbn [step phase processor].
      split; [auto | split; [auto | apply appends_replies_refl; reflexivity]].
  - left. cbn [step phase processor].
    split; [auto | split; [auto | apply appends_replies_refl; reflexivity]].
  - left. cbn [step processor].
    destruct (forward_publish_response_effect self result) as (Hch & Hse & Happ).
    split; [congruence | split; [congruence | exact Happ]].
Qed.

Lemma step_keeps_channel_and_session (c : Connection W Session Data) (e : Event Data) :
  (channel (processor c) <> None -> channel (processor (step c e)) <> None) /\
  (session (processor c) <> None -> session (processor (step c e)) <> None).
Proof.
  destruct (step_keeps_bindings c e) as [(Hch & Hse & _)|Hph]; [auto|].
  destruct c as [self ph]. cbn in Hph. subst ph.
  destruct e as [frame| |result]; cbn [step phase processor].
  - rewrite processor_after_step.
    destruct (hello_phase_effect self frame) as (Hch & Hse & _).
    split; congruence.
  - auto.
  - destruct (forward_publish_response_effect self result) as (Hch & Hse & _).
    split; congruence.
Qed.

(** Nothing ever unbinds: in any run from any state of a connection, once a
    channel record exists one exists for good (no SecureClose, renewal or
    end of the loop removes it), and once a session is bound one stays bound
    (CloseSession included). *)
Theorem channel_and_session_stay (events : list (Event Data))
    (c : Connection W Session Data) :
  (channel (processor c) <> None -> channel (processor (run events c)) <> None) /\
  (session (processor c) <> None -> session (processor (run events c)) <> None).
Proof.
  revert c. induction events as [|e events IH]; intros c; [auto|].
  change (run (e :: events) c) with (run events (step c e)).
  destruct (IH (step c e)) as [Hch Hse].
  destruct (step_keeps_channel_and_session c e) as [Hch' Hse'].
  auto.
Qed.

Lemma phase_after_step (r : Proc * Outcome bool) :
  (snd r = Returned true /\ phase (after_step r) = Reading) \/
  (snd r <> Returned true /\ phase (after_step r) = Exited).
Proof.
  destruct r as [self [[]|e]]; cbn; [left | right | right]; split;
    try reflexivity; discriminate.
Qed.

Lemma step_shaped (c : Connection W Session Data) (e : Event Data) :
  shaped W Session Data c -> shaped W Session Data (step c e).
Proof.
  destruct c as [self ph]. unfold shaped. cbn [processor phase].
  destruct e as [frame| |result].
  - destruct ph.
    + unfold step. cbn [phase processor]. rewrite processor_after_step.
      destruct (socket self) as [|first rest] eqn:Hso.
      * intros [Hq _].
        pose proof (hello_phase_queue self frame) as Hq'. rewrite Hq in Hq'.
        destruct (hello_phase_effect self frame)
          as (_ & _ & [(Hs & Hr)|[(chunk & Hs & Hk & _ & Hr)|(chunk & Hs & Hk & _ & Hr)]]);
          rewrite Hs, ?Hso; cbn [app].
        -- split; [exact Hq'|].
           destruct (phase_after_step (hello_phase frame self)) as [[Ht _]|[_ Hp]];
             [exfalso; exact (Hr true Ht) | rewrite Hp; discriminate].
        -- left. repeat split; auto.
           destruct (phase_after_step (hello_phase frame self)) as [[Ht _]|[_ Hp]];
             [congruence | exact Hp].
        -- right. repeat split; auto.
           destruct (phase_after_step (hello_phase frame self)) as [[_ Hp]|[_ Hp]];
             rewrite Hp; discriminate.
      * intros [(_ & _ & _ & Hp)|(_ & _ & Hp)]; [discriminate | congruence].
    + unfold step. cbn [phase processor]. rewrite processor_after_step.
      destruct (read_step_effect self frame) as (_ & _ & l & Hs & _ & Hl).
      destruct (socket self) as [|first rest] eqn:Hso.
      * intros [_ Hp]. congruence.
      * intros [(_ & _ & _ & Hp)|(Hk & Hrest & _)]; [discriminate|].
        rewrite Hs. cbn [app]. right. repeat split; auto.
        -- rewrite forallb_app, Hrest, Hl. reflexivity.
        -- destruct (phase_after_step (read_step frame self)) as [[_ Hp]|[_ Hp]];
             rewrite Hp; discriminate.
    + cbn. auto.
  - cbn [step processor phase].
    destruct (socket self) as [|first rest].
    + intros [Hq _]. split; [exact Hq | discriminate].
    + intros [(Hk & Hrest & Hq & _)|(Hk & Hrest & Hp)].
      * left. auto.
      * right. repeat split; auto. discriminate.
  - cbn [step processor phase].
    destruct (_publishdata_queue self) as [|slot q] eqn:Hq.
    + rewrite forward_publish_response_empty by exact Hq. cbn [fst]. rewrite Hq. auto.
    + destruct (forward_publish_response_effect self result) as (_ & _ & l & Hs & _ & Hl).
      destruct (socket self) as [|first rest] eqn:Hso.
      * intros [Hq' _]. discriminate.
      * intros [(_ & _ & Hq' & _)|(Hk & Hrest & Hp)]; [discriminate|].
        rewrite Hs. cbn [app]. right. repeat split; auto.
        rewrite forallb_app, Hrest, Hl. reflexivity.
Qed.

Lemma step_well_formed (c : Connection W Session Data) (e : Event Data) :
  Forall well_formed (socket (processor c)) ->
  Forall well_formed (socket (processor (step c e))).
Proof.
  intros Hwf.
  destruct (step_keeps_bindings c e) as [(_ & _ & l & Hs & Hl & _)|Hph].
  - rewrite Hs. apply Forall_app. split; assumption.
  - destruct c as [self ph]. cbn in Hph. subst ph.
    destruct e as [frame| |result]; cbn [step phase processor] in *.
    + rewrite processor_after_step.
      destruct (hello_phase_effect self frame)
        as (_ & _ & [(Hs & _)|[(chunk & Hs & _ & Hk & _)|(chunk & Hs & _ & Hk & _)]]);
        rewrite Hs; try assumption;
        apply Forall_app; split; try assumption; constructor; auto.
    + exact Hwf.
    + destruct (forward_publish_response_effect self result) as (_ & _ & l & Hs & Hl & _).
      rewrite Hs. apply Forall_app. split; assumption.
Qed.

Lemma run_shaped (events : list (Event Data)) (c : Connection W Session Data) :
  shaped W Session Data c -> Forall well_formed (socket (processor c)) ->
  shaped W Session Data (run events c) /\
  Forall well_formed (socket (processor (run events c))).
Proof.
  revert c. induction events as [|e events IH]; intros c Hshape Hwf; [auto|].
  change (run (e :: events) c) with (run events (step c e)).
  apply IH; [apply step_shaped | apply step_well_formed]; assumption.
Qed.

Lemma connect_shaped (internal_server : W) (name : string) :
  shaped W Session Data (connect internal_server name) /\
  Forall well_formed (socket (processor (connect internal_server name : Connection W Session Data))).
Proof. split; [cbn; split; [reflexivity | discriminate] | constructor]. Qed.

(** In every run the socket holds nothing, or a single bare Error header, or
    an Acknowledge followed by replies on a channel only (SecureOpen or
    SecureMessage chunks with a channel id, each an algorithm header, a
    sequence header and a response).  So the first chunk written is an
    Acknowledge or an Error, neither is written twice, and nothing follows
    an Error.  Every chunk has chunk type Single and a header whose body
    size is the total size of its parts. *)
Theorem socket_shape (internal_server : W) (name : string) (events : list (Event Data)) :
  let chunks := socket (processor (run events (connect internal_server name))) in
  handshaken chunks = true /\ Forall well_formed chunks.
Proof.
  intros chunks. subst chunks.
  destruct (connect_shaped internal_server name) as [Hshape0 Hwf0].
  destruct (run_shaped events _ Hshape0 Hwf0) as [Hshape Hwf].
  split; [|exact Hwf].
  unfold shaped in Hshape. unfold handshaken.
  destruct (socket (processor (run events (connect internal_server name))))
    as [|first rest]; [reflexivity|].
  destruct Hshape as [(Hk & Hrest & _)|(Hk & Hrest & _)].
  - subst rest. rewrite Hk. reflexivity.
  - rewrite Hk, Hrest. apply orb_true_r.
Qed.

Lemma envelopes_app (a b : list (ua.Chunk Data)) :
  envelopes (a ++ b) = envelopes a ++ envelopes b.
Proof. apply flat_map_app. Qed.

Lemma service_results_app (a b : list (ua.Chunk Data)) :
  service_results (a ++ b) = service_results a ++ service_results b.
Proof. apply flat_map_app. Qed.

Lemma algorithm_token_set (algohdr : ua.AlgorithmHeader) (tokenid : Z) :
  algorithm_token (ua.set_TokenId algohdr tokenid) = Some tokenid.
Proof. destruct algohdr; reflexivity. Qed.

Lemma response_chunk_envelope ch requesthandle algohdr seqhdr
    (response : ua.Response Data) msgtype n :
  chunk_envelope (response_chunk ch requesthandle algohdr seqhdr response msgtype n) =
  [(Some (ua.ChannelSecurityToken.ChannelId (ua.OpenSecureChannelResult.SecurityToken ch)),
    Some (ua.ChannelSecurityToken.TokenId (ua.OpenSecureChannelResult.SecurityToken ch)),
    n, ua.SequenceHeader.RequestId seqhdr)].
Proof.
  unfold chunk_envelope, response_chunk. cbn [ua.chunk_header ua.chunk_parts].
  rewrite add_sizes, algorithm_token_set. reflexivity.
Qed.

(** What one successful [send_response] adds to the observations. *)
Lemma send_response_observed (self : Proc) ch requesthandle algohdr seqhdr response msgtype :
  channel self = Some ch ->
  let out := send_response requesthandle algohdr seqhdr response msgtype self in
  let token := ua.OpenSecureChannelResult.SecurityToken ch in
  snd out = Returned tt /\
  replies (socket (fst out)) =
  replies (socket self) ++ [(msgtype, requesthandle, _seq_number self, ua.Body response)] /\
  envelopes (socket (fst out)) =
  envelopes (socket self) ++
  [(Some (ua.ChannelSecurityToken.ChannelId token),
    Some (ua.ChannelSecurityToken.TokenId token),
    _seq_number self, ua.SequenceHeader.RequestId seqhdr)] /\
  service_results (socket (fst out)) =
  service_results (socket self) ++
  [ua.ResponseHeader.ServiceResult (ua.ResponseHeader response)] /\
  List.length (socket (fst out)) = S (List.length (socket self)).
Proof.
  intros Hch out token. subst out token.
  rewrite (send_response_channel self ch) by exact Hch. cbn [fst snd socket set_socket].
  rewrite replies_app, envelopes_app, service_results_app, length_app.
  unfold replies at 2, envelopes at 2. cbn [flat_map].
  rewrite response_chunk_reply, response_chunk_envelope, !app_nil_r.
  repeat split. cbn. lia.
Qed.

Lemma replies_of_unnumbered (chunks : list (ua.Chunk Data)) :
  sequence_numbers chunks = [] -> replies chunks = [].
Proof.
  induction chunks as [|chunk chunks IH]; [reflexivity|].
  unfold sequence_numbers, replies. cbn [flat_map].
  intros H. apply app_eq_nil in H. destruct H as [Hchunk Hrest].
  unfold replies in IH. rewrite (IH Hrest), app_nil_r.
  unfold chunk_reply. unfold chunk_sequence_numbers in Hchunk.
  destruct (ua.chunk_parts chunk) as [|[] [|[] [|[] [|]]]]; try reflexivity;
    cbn in Hchunk; discriminate.
Qed.

Lemma unnumbered_replies (chunks : list (ua.Chunk Data)) :
  forallb is_reply chunks = true -> sequence_numbers chunks = [] -> chunks = [].
Proof.
  destruct chunks as [|chunk chunks]; [reflexivity|].
  cbn [forallb]. intros H Hseq. exfalso.
  apply andb_true_iff in H. destruct H as [Hreply _].
  unfold sequence_numbers in Hseq. cbn [flat_map] in Hseq.
  apply app_eq_nil in Hseq. destruct Hseq as [Hchunk _].
  unfold is_reply in Hreply. unfold chunk_sequence_numbers in Hchunk.
  destruct (ua.chunk_parts chunk) as [|[] [|[] [|[] [|]]]];
    rewrite ?andb_false_r in Hreply; try discriminate.
Qed.

(** No service is answered before a channel is open: in every run, as long
    as no channel record exists, no reply has been written (the socket
    holds at most the Acknowledge or the Error header), and while the read
    loop is alive the processor is still as [__init__] left it: no session
    bound, no publish slot queued, the counter at 1. *)
Theorem no_reply_before_channel (internal_server : W) (name : string)
    (events : list (Event Data)) :
  let c := run events (connect internal_server name) in
  channel (processor c) = None ->
  replies (socket (processor c)) = [] /\
  (List.length (socket (processor c)) <= 1)%nat /\
  (phase c <> Exited ->
   session (processor c) = None /\ _publishdata_queue (processor c) = [] /\
   _seq_number (processor c) = 1).
Proof.
  intros c Hch.
  pose proof (run_invariant events _ (connect_invariant internal_server name))
    as (Hn & _ & Hu).
  destruct (connect_shaped internal_server name) as [Hshape0 Hwf0].
  destruct (run_shaped events _ Hshape0 Hwf0) as [Hshape _].
  fold c in Hn, Hu, Hshape. unfold numbered in Hn. rewrite Hch in Hn.
  split; [apply replies_of_unnumbered; exact Hn|]. split.
  - unfold shaped in Hshape.
    destruct (socket (processor c)) as [|first rest]; [cbn; lia|].
    destruct Hshape as [(_ & Hrest & _)|(_ & Hrest & _)].
    + subst rest. cbn. lia.
    + unfold sequence_numbers in Hn. cbn [flat_map] in Hn.
      apply app_eq_nil in Hn. destruct Hn as [_ Hn].
      rewrite (unnumbered_replies rest Hrest Hn). cbn. lia.
  - intros Hphase. destruct (Hu Hphase Hch) as (Hsq & Hse & Hq). auto.
Qed.

(** *** Service dispatch *)

(** A service request is answered at most once.  Either [process_message]
    writes nothing, and then it returns normally only for a PublishRequest;
    or it returns having written exactly one chunk: a SecureMessage reply
    that echoes the request handle and the request id of the request,
    carries the next sequence number, and is stamped with the channel id
    and the token id of the current channel record, whatever ids the
    request came with. *)
Theorem process_message_replies_once (self : Proc) algohdr seqhdr requesthdr request :
  let out := process_message algohdr seqhdr requesthdr request self in
  (socket (fst out) = socket self /\
   (snd out = Returned tt -> exists acks, request = ua.PublishRequest acks))
  \/
  (exists ch body,
     channel self = Some ch /\
     snd out = Returned tt /\
     List.length (socket (fst out)) = S (List.length (socket self)) /\
     replies (socket (fst out)) =
     replies (socket self) ++
     [(ua.MessageType.SecureMessage, ua.RequestHeader.RequestHandle requesthdr,
       _seq_number self, body)] /\
     envelopes (socket (fst out)) =
     envelopes (socket self) ++
     [(Some (ua.ChannelSecurityToken.ChannelId (ua.OpenSecureChannelResult.SecurityToken ch)),
       Some (ua.ChannelSecurityToken.TokenId (ua.OpenSecureChannelResult.SecurityToken ch)),
       _seq_number self, ua.SequenceHeader.RequestId seqhdr)]).
Proof.
  intros out. subst out.
  destruct (process_message_normal_form self algohdr seqhdr requesthdr request)
    as [(Hso & _ & _ & _ & [(_ & _ & Hr)|(acks & sess & Hreq & _ & _)])
       |(self1 & response & Hso & Hch & Hsq & _ & _ & _ & _ & Heq)].
  - left. split; [exact Hso|]. rewrite Hr. discriminate.
  - left. split; [exact Hso|]. intros _. exists acks. exact Hreq.
  - rewrite Heq. destruct (channel self) as [ch|] eqn:Hc.
    + right. exists ch, (ua.Body response).
      destruct (send_response_observed self1 ch (ua.RequestHeader.RequestHandle requesthdr)
                  algohdr seqhdr response ua.MessageType.SecureMessage Hch)
        as (Hret & Hrep & Henv & _ & Hlen).
      rewrite Hso, Hsq in *. auto.
    + left. rewrite send_response_no_channel by exact Hch.
      cbn [fst snd]. split; [exact Hso | discriminate].
Qed.

(** Two services need no session.  On an open channel, bound session or
    not, an unknown type id is answered by a ServiceFault whose service
    result is BadNotImplemented, and GetEndpoints by what the internal
    server's [get_endpoints] returns; both echo the request handle and
    leave the session binding alone, and the fault does not touch the
    internal server. *)
Theorem services_without_session (self : Proc) ch algohdr seqhdr requesthdr :
  channel self = Some ch ->
  let handle := ua.RequestHeader.RequestHandle requesthdr in
  (forall typeid,
     let out := process_message algohdr seqhdr requesthdr (ua.UnknownRequest typeid) self in
     snd out = Returned tt /\
     replies (socket (fst out)) =
     replies (socket self) ++
     [(ua.MessageType.SecureMessage, handle, _seq_number self, ua.ServiceFault)] /\
     service_results (socket (fst out)) =
     service_results (socket self) ++ [ua.StatusCodes.BadNotImplemented] /\
     session (fst out) = session self /\ world (fst out) = world self) /\
  (forall params,
     let out := process_message algohdr seqhdr requesthdr (ua.GetEndpointsRequest params) self in
     snd out = Returned tt /\
     replies (socket (fst out)) =
     replies (socket self) ++
     [(ua.MessageType.SecureMessage, handle, _seq_number self,
       ua.GetEndpointsResponse (snd (InternalServer.get_endpoints params (world self))))] /\
     service_results (socket (fst out)) =
     service_results (socket self) ++ [ua.StatusCodes.Good] /\
     session (fst out) = session self).
Proof.
  intros Hch handle. split.
  - intros typeid out. subst out. unfold process_message.
    destruct (send_response_observed self ch handle algohdr seqhdr
                (ua.set_ServiceResult (ua.new_response ua.ServiceFault)
                   ua.StatusCodes.BadNotImplemented)
                ua.MessageType.SecureMessage Hch) as (Hret & Hrep & _ & Hres & _).
    repeat split; try assumption;
      rewrite (send_response_channel self ch) by exact Hch; reflexivity.
  - intros params out. subst out. unfold process_message, bind, call.
    destruct (InternalServer.get_endpoints params (world self)) as [w endpoints].
    cbn [snd].
    assert (Hch' : channel (set_world w self) = Some ch) by exact Hch.
    destruct (send_response_observed (set_world w self) ch handle algohdr seqhdr
                (ua.new_response (ua.GetEndpointsResponse endpoints))
                ua.MessageType.SecureMessage Hch') as (Hret & Hrep & _ & Hres & _).
    repeat split; try assumption.
    rewrite (send_response_channel _ ch) by exact Hch'. reflexivity.
Qed.

(** CreateSession binds the session before it answers: afterwards the
    processor holds the session the internal server created for its name,
    whatever was bound before and even when the reply cannot be sent.  On
    an open channel the reply is a CreateSessionResponse with what that
    session's [create_session] returned; without a channel the request
    raises, nothing is written, and the session stays bound. *)
Theorem create_session_binds (self : Proc) algohdr seqhdr requesthdr params :
  let created := InternalServer.create_session (name self) (world self) in
  let sessiondata :=
    InternalSession.create_session (snd created) params (fst created) in
  let out := process_message algohdr seqhdr requesthdr (ua.CreateSessionRequest params) self in
  session (fst out) = Some (snd created) /\
  world (fst out) = fst sessiondata /\
  (channel self = None ->
   snd out = Raised AttributeError /\ socket (fst out) = socket self) /\
  (channel self <> None ->
   snd out = Returned tt /\
   replies (socket (fst out)) =
   replies (socket self) ++
   [(ua.MessageType.SecureMessage, ua.RequestHeader.RequestHandle requesthdr,
     _seq_number self, ua.CreateSessionResponse (snd sessiondata))]).
Proof.
  intros created sessiondata out. subst created sessiondata out.
  unfold process_message, with_session, bind, gets, modify, call.
  cbn -[send_response].
  destruct (InternalServer.create_session (name self) (world self)) as [w1 sess].
  cbn -[send_response].
  destruct (InternalSession.create_session sess params w1) as [w2 data].
  cbn -[send_response].
  match goal with
  | |- context [send_response ?h ?a ?s ?r ?m ?x] => set (self1 := x)
  end.
  destruct (channel self) as [ch|] eqn:Hch.
  - assert (Hch1 : channel self1 = Some ch) by exact Hch.
    destruct (send_response_observed self1 ch (ua.RequestHeader.RequestHandle requesthdr)
                algohdr seqhdr (ua.new_response (ua.CreateSessionResponse data))
                ua.MessageType.SecureMessage Hch1) as (Hret & Hrep & _).
    rewrite (send_response_channel self1 ch) in * by exact Hch1.
    repeat split; try congruence; try assumption.
  - assert (Hch1 : channel self1 = None) by exact Hch.
    rewrite send_response_no_channel by exact Hch1.
    repeat split; congruence.
Qed.

(** With a session bound and a channel open, every session-scoped request
    but PublishRequest (CloseSession, Read, Write, Browse,
    TranslateBrowsePathsToNodeIds, AddNodes, CreateSubscription,
    DeleteSubscriptions, CreateMonitoredItems, DeleteMonitoredItems) is
    answered: [process_message] returns with exactly one reply that echoes
    the handle.  The session stays bound to the same session object, also
    after CloseSession, and the publish queue is not touched. *)
Theorem bound_session_answers (self : Proc) sess ch algohdr seqhdr requesthdr request :
  session self = Some sess ->
  channel self = Some ch ->
  session_answers request = true ->
  let out := process_message algohdr seqhdr requesthdr request self in
  snd out = Returned tt /\
  (exists body,
     replies (socket (fst out)) =
     replies (socket self) ++
     [(ua.MessageType.SecureMessage, ua.RequestHeader.RequestHandle requesthdr,
       _seq_number self, body)]) /\
  session (fst out) = Some sess /\
  _publishdata_queue (fst out) = _publishdata_queue self.
Proof.
  intros Hse Hch Hreq out. subst out.
  destruct (process_message_normal_form self algohdr seqhdr requesthdr request)
    as [(_ & _ & _ & _ & [(_ & Hnone & _)|(acks & _ & Heq & _)])
       |(self1 & response & Hso & Hch1 & Hsq & Hq & Hse1 & _ & _ & Heq)].
  - congruence.
  - subst request. discriminate.
  - rewrite Heq. rewrite Hch in Hch1.
    destruct (send_response_observed self1 ch (ua.RequestHeader.RequestHandle requesthdr)
                algohdr seqhdr response ua.MessageType.SecureMessage Hch1)
      as (Hret & Hrep & _).
    destruct (send_response_effect self1 (ua.RequestHeader.RequestHandle requesthdr)
                algohdr seqhdr response ua.MessageType.SecureMessage (or_intror eq_refl))
      as (_ & Hse2 & Hq2 & _).
    cbv zeta in *. rewrite Hso, Hsq in Hrep.
    repeat split; try assumption.
    + eexists. exact Hrep.
    + rewrite Hse2. destruct Hse1 as [Hse1|[[params Hp] _]]; [congruence|].
      subst request. discriminate.
    + congruence.
Qed.

(** *** Issue, renew, and the replies that follow *)

Lemma renew_step (self : Proc) ch params :
  channel self = Some ch ->
  ua.OpenSecureChannelParameters.RequestType params = ua.SecurityTokenRequestType.Renew ->
  exists ch',
    snd (_open_secure_channel params self) = Returned ch' /\
    channel (fst (_open_secure_channel params self)) = Some ch' /\
    let old := ua.OpenSecureChannelResult.SecurityToken ch in
    let new := ua.OpenSecureChannelResult.SecurityToken ch' in
    ua.ChannelSecurityToken.TokenId new = ua.ChannelSecurityToken.TokenId old + 1 /\
    ua.ChannelSecurityToken.ChannelId new = ua.ChannelSecurityToken.ChannelId old /\
    ua.ChannelSecurityToken.RevisedLifetime new =
    ua.OpenSecureChannelParameters.RequestedLifetime params.
Proof.
  intros Hch Hrenew. destruct self as [w nm se c so q sq]. cbn in Hch. subst c.
  destruct params as [requesttype nonce lifetime]. cbn in Hrenew. subst requesttype.
  unfold _open_secure_channel, with_channel, bind, gets, modify, call, ret.
  run_calls. eexists. repeat split.
Qed.

Lemma issue_step (self : Proc) params :
  ua.OpenSecureChannelParameters.RequestType params = ua.SecurityTokenRequestType.Issue ->
  exists ch',
    snd (_open_secure_channel params self) = Returned ch' /\
    channel (fst (_open_secure_channel params self)) = Some ch' /\
    let new := ua.OpenSecureChannelResult.SecurityToken ch' in
    ua.ChannelSecurityToken.TokenId new = 14 /\
    ua.ChannelSecurityToken.ChannelId new =
    snd (InternalServer.get_new_channel_id (world self)) /\
    ua.ChannelSecurityToken.RevisedLifetime new =
    ua.OpenSecureChannelParameters.RequestedLifetime params.
Proof.
  intros Hissue. destruct self as [w nm se c so q sq].
  destruct params as [requesttype nonce lifetime]. cbn in Hissue. subst requesttype.
  unfold _open_secure_channel, with_channel, bind, gets, modify, call, ret.
  cbn -[uuid.bytes]. destruct (InternalServer.get_new_channel_id w) as [w1 id].
  run_calls. eexists. repeat split.
Qed.

Lemma last_cons_default (l : list Z) (x d d' : Z) :
  last (x :: l) d = last (x :: l) d'.
Proof.
  revert x. induction l as [|y l IH]; intros x; [reflexivity|].
  change (last (x :: y :: l) d) with (last (y :: l) d).
  change (last (x :: y :: l) d') with (last (y :: l) d'). apply IH.
Qed.

Lemma renewals (renews : list ua.OpenSecureChannelParameters.t) (self : Proc) ch :
  channel self = Some ch ->
  Forall (fun params =>
            ua.OpenSecureChannelParameters.RequestType params =
            ua.SecurityTokenRequestType.Renew) renews ->
  exists ch',
    channel (open_all renews self) = Some ch' /\
    let old := ua.OpenSecureChannelResult.SecurityToken ch in
    let new := ua.OpenSecureChannelResult.SecurityToken ch' in
    ua.ChannelSecurityToken.TokenId new =
    ua.ChannelSecurityToken.TokenId old + Z.of_nat (List.length renews) /\
    ua.ChannelSecurityToken.ChannelId new = ua.ChannelSecurityToken.ChannelId old /\
    ua.ChannelSecurityToken.RevisedLifetime new =
    last (map ua.OpenSecureChannelParameters.RequestedLifetime renews)
      (ua.ChannelSecurityToken.RevisedLifetime old).
Proof.
  revert self ch. induction renews as [|params renews IH]; intros self ch Hch Hall.
  - exists ch. cbn. repeat split; [exact Hch | lia].
  - inversion Hall as [|? ? Hrenew Hrest]; subst.
    destruct (renew_step self ch params Hch Hrenew) as (ch1 & _ & Hch1 & Ht & Hi & Hl).
    change (open_all (params :: renews) self)
      with (open_all renews (fst (_open_secure_channel params self))).
    destruct (IH _ ch1 Hch1 Hrest) as (ch' & Hch' & Ht' & Hi' & Hl').
    exists ch'. cbv zeta in *. repeat split.
    + exact Hch'.
    + rewrite Ht', Ht. rewrite length_cons, Nat2Z.inj_succ. lia.
    + congruence.
    + rewrite Hl', Hl. cbn [map].
      destruct renews as [|next renews]; [reflexivity|].
      cbn [map].
      match goal with
      | |- last (?a :: ?m) ?d1 = last (?p :: ?a :: ?m) ?d2 =>
          change (last (p :: a :: m) d2) with (last (a :: m) d2)
      end.
      apply last_cons_default.
Qed.

(** Token ids count renewals since the last Issue.  From any state, an Issue
    followed by k Renews leaves a channel record with token id 14 + k, the
    channel id the internal server handed out for the Issue, and the
    lifetime of the last request; what the record held before the Issue
    (token id, channel id) is gone. *)
Theorem issue_then_renewals (self : Proc) (issue : ua.OpenSecureChannelParameters.t)
    (renews : list ua.OpenSecureChannelParameters.t) :
  ua.OpenSecureChannelParameters.RequestType issue = ua.SecurityTokenRequestType.Issue ->
  Forall (fun params =>
            ua.OpenSecureChannelParameters.RequestType params =
            ua.SecurityTokenRequestType.Renew) renews ->
  exists ch,
    channel (open_all (issue :: renews) self) = Some ch /\
    let token := ua.OpenSecureChannelResult.SecurityToken ch in
    ua.ChannelSecurityToken.TokenId token = 14 + Z.of_nat (List.length renews) /\
    ua.ChannelSecurityToken.ChannelId token =
    snd (InternalServer.get_new_channel_id (world self)) /\
    ua.ChannelSecurityToken.RevisedLifetime token =
    last (map ua.OpenSecureChannelParameters.RequestedLifetime renews)
      (ua.OpenSecureChannelParameters.RequestedLifetime issue).
Proof.
  intros Hissue Hrenews.
  destruct (issue_step self issue Hissue) as (ch1 & _ & Hch1 & Ht & Hi & Hl).
  change (open_all (issue :: renews) self)
    with (open_all renews (fst (_open_secure_channel issue self))).
  destruct (renewals renews _ ch1 Hch1 Hrenews) as (ch & Hch & Ht' & Hi' & Hl').
  exists ch. cbv zeta in *. repeat split; congruence.
Qed.

(** The reply to a SecureOpen tells the client the record the processor now
    holds.  For an Issue, or a Renew of an existing channel,
    [open_secure_channel] returns having written one SecureOpen chunk whose
    OpenSecureChannelResponse carries exactly the stored record, which
    echoes the request handle and the request id, and which is stamped with
    the channel id and token id of the new record, not of the one before. *)
Theorem secure_open_reply (self : Proc) algohdr seqhdr
    (request : ua.OpenSecureChannelRequest.t) :
  ua.OpenSecureChannelParameters.RequestType (ua.OpenSecureChannelRequest.Parameters request)
  = ua.SecurityTokenRequestType.Issue \/ channel self <> None ->
  let out := open_secure_channel (ua.OpenSecureChannelBody algohdr seqhdr request) self in
  snd out = Returned tt /\
  exists ch,
    channel (fst out) = Some ch /\
    replies (socket (fst out)) =
    replies (socket self) ++
    [(ua.MessageType.SecureOpen,
      ua.RequestHeader.RequestHandle (ua.OpenSecureChannelRequest.RequestHeader request),
      _seq_number self, ua.OpenSecureChannelResponse ch)] /\
    envelopes (socket (fst out)) =
    envelopes (socket self) ++
    [(Some (ua.ChannelSecurityToken.ChannelId (ua.OpenSecureChannelResult.SecurityToken ch)),
      Some (ua.ChannelSecurityToken.TokenId (ua.OpenSecureChannelResult.SecurityToken ch)),
      _seq_number self, ua.SequenceHeader.RequestId seqhdr)].
Proof.
  intros Hreq out. subst out.
  unfold open_secure_channel, decode_open_secure_channel, bind, ret.
  cbn -[_open_secure_channel send_response].
  set (params := ua.OpenSecureChannelRequest.Parameters request) in *.
  assert (Hopen : exists ch,
             snd (_open_secure_channel params self) = Returned ch /\
             channel (fst (_open_secure_channel params self)) = Some ch).
  { destruct (ua.OpenSecureChannelParameters.RequestType params) eqn:Htype.
    - destruct (issue_step self params Htype) as (ch & H1 & H2 & _). eauto.
    - destruct Hreq as [Hreq|Hreq]; [discriminate|].
      destruct (channel self) as [old|] eqn:Hch; [|congruence].
      destruct (renew_step self old params Hch Htype) as (ch & H1 & H2 & _). eauto. }
  destruct Hopen as (ch & Hret & Hch).
  pose proof (_open_secure_channel_effect self params) as (Hso & _ & _ & Hsq & _).
  destruct (_open_secure_channel params self) as [self1 r]. cbn [fst snd] in *. subst r.
  destruct (send_response_observed self1 ch
              (ua.RequestHeader.RequestHandle (ua.OpenSecureChannelRequest.RequestHeader request))
              (ua.Asymmetric algohdr) seqhdr
              (ua.new_response (ua.OpenSecureChannelResponse ch))
              ua.MessageType.SecureOpen Hch) as (Hsent & Hrep & Henv & _).
  destruct (send_response_effect self1
              (ua.RequestHeader.RequestHandle (ua.OpenSecureChannelRequest.RequestHeader request))
              (ua.Asymmetric algohdr) seqhdr
              (ua.new_response (ua.OpenSecureChannelResponse ch))
              ua.MessageType.SecureOpen (or_introl eq_refl)) as (Hch' & _).
  cbv zeta in *. rewrite Hso, Hsq in *.
  split; [exact Hsent|]. exists ch. repeat split; [congruence | exact Hrep | exact Henv].
Qed.

(** A publish response is stamped when it is sent, not when it was asked
    for.  If the channel is renewed while a PublishRequest waits in the
    queue, the PublishResponse carries the renewed token id (one above the
    old one) and the channel id, with the request id of the waiting
    request. *)
Theorem publish_response_after_renewal (self : Proc) ch slot rest params result :
  channel self = Some ch ->
  _publishdata_queue self = slot :: rest ->
  ua.OpenSecureChannelParameters.RequestType params = ua.SecurityTokenRequestType.Renew ->
  let renewed := fst (_open_secure_channel params self) in
  let out := forward_publish_response result renewed in
  let token := ua.OpenSecureChannelResult.SecurityToken ch in
  snd out = Returned tt /\
  envelopes (socket (fst out)) =
  envelopes (socket self) ++
  [(Some (ua.ChannelSecurityToken.ChannelId token),
    Some (ua.ChannelSecurityToken.TokenId token + 1),
    _seq_number self, ua.SequenceHeader.RequestId (seqhdr slot))].
Proof.
  intros Hch Hq Hrenew renewed out token. subst out renewed token.
  destruct (renew_step self ch params Hch Hrenew) as (ch1 & _ & Hch1 & Ht & Hi & _).
  pose proof (_open_secure_channel_effect self params) as (Hso & _ & Hq1 & Hsq & _).
  cbv zeta in *. rewrite Hq in Hq1.
  set (renewed := fst (_open_secure_channel params self)) in *.
  unfold forward_publish_response, bind, gets, modify.
  cbn -[send_response]. rewrite Hq1.
  match goal with
  | |- context [send_response ?h ?a ?s ?r ?m ?x] =>
      assert (Hchx : channel x = Some ch1) by exact Hch1;
      destruct (send_response_observed x ch1 h a s r m Hchx) as (Hret & _ & Henv & _)
  end.
  cbn [socket set_seq_number set_publishdata_queue _seq_number] in *.
  rewrite Hso, Hsq, Ht, Hi in Henv. split; assumption.
Qed.

(** A PublishRequest and the notification that answers it, on an open
    channel with a bound session and no other request waiting: the request
    is queued without a reply and [session.publish] gets the
    acknowledgements; the callback then returns, the queue is empty again,
    and the one chunk written is a PublishResponse with the result, the
    handle and the request id of that request. *)
Theorem publish_round_trip (self : Proc) sess ch algo sequence request acks result :
  session self = Some sess ->
  channel self = Some ch ->
  _publishdata_queue self = [] ->
  let queued :=
    process_message algo sequence request (ua.PublishRequest acks) self in
  let out := forward_publish_response result (fst queued) in
  snd queued = Returned tt /\
  socket (fst queued) = socket self /\
  world (fst queued) = InternalSession.publish sess acks (world self) /\
  snd out = Returned tt /\
  _publishdata_queue (fst out) = [] /\
  replies (socket (fst out)) =
  replies (socket self) ++
  [(ua.MessageType.SecureMessage, ua.RequestHeader.RequestHandle request,
    _seq_number self, ua.PublishResponse result)] /\
  map (fun envelope => snd envelope) (envelopes (socket (fst out))) =
  map (fun envelope => snd envelope) (envelopes (socket self)) ++
  [ua.SequenceHeader.RequestId sequence].
Proof.
  intros Hse Hch Hq queued out. subst out queued.
  unfold process_message, with_session, bind, gets, modify, call_.
  cbn -[send_response forward_publish_response]. rewrite Hse, Hq.
  cbn -[send_response forward_publish_response].
  match goal with
  | |- context [forward_publish_response result ?x] => set (queued := x)
  end.
  assert (Hchq : channel queued = Some ch) by exact Hch.
  rewrite (forward_publish_response_slot queued ch
             (BuildPublishRequestData request algo sequence) [] result Hchq eq_refl).
  cbn [fst snd socket set_socket set_seq_number set_publishdata_queue _publishdata_queue
         requesthdr algohdr seqhdr].
  rewrite replies_app, envelopes_app, map_app.
  unfold replies at 2, envelopes at 2. cbn [flat_map].
  rewrite response_chunk_reply, response_chunk_envelope, !app_nil_r.
  repeat split.
Qed.

End Properties.

(** ** The properties on the test double *)

(** C1 on S5 followed by two notifications: four numbered chunks, 1 to 4,
    and the counter at 5. *)
Lemma outgoing_sequence_numbers_S5 :
  let events :=
    map Receive Fixture.S5 ++ [Notification "N1"%string; Notification "N2"%string] in
  let self : Fixture.Processor :=
    processor (run events (connect Fixture.start "client"%string)) in
  sequence_numbers (socket self) = [1; 2; 3; 4] /\ _seq_number self = 5.
Proof.
  intros events self.
  destruct (outgoing_sequence_numbers Fixture.start "client"%string events [])
    as (_ & _ & (Hsent & Hcounter) & _).
  split.
  - exact Hsent.
  - apply Hcounter. vm_compute. discriminate.
Defined.

(** C2 on an open channel with id 100: a SecureClose for channel 999 ends
    the loop and changes nothing. *)
Lemma secure_close_wrong_channel :
  let self := Fixture.after [Fixture.hello; Fixture.open ua.SecurityTokenRequestType.Issue] in
  process_body (ua.frame_header (Fixture.close 999)) ua.EmptyBody self =
  (self, Returned false).
Proof.
  intros self.
  destruct (secure_close_leaves_state (ua.frame_header (Fixture.close 999))
              ua.EmptyBody self eq_refl) as [_ H].
  apply H. intros ch Hch. vm_compute in Hch. inversion Hch. vm_compute. discriminate.
Defined.

(** C2 fails as stated: on the same channel, a SecureClose for channel 100,
    the stored id, keeps the record and returns [True], so the loop goes on
    and answers the next request. *)
Lemma secure_close_matching_channel_goes_on :
  let self := Fixture.after [Fixture.hello; Fixture.open ua.SecurityTokenRequestType.Issue] in
  let closed := process_body (ua.frame_header (Fixture.close 100)) ua.EmptyBody self in
  ~ (channel (fst closed) = None /\ snd closed = Returned false) /\
  channel (fst closed) <> None /\
  snd closed = Returned true /\
  map fst
    (replies (socket (Fixture.after
       [Fixture.hello; Fixture.open ua.SecurityTokenRequestType.Issue;
        Fixture.close 100;
        Fixture.message 7 (ua.CreateSessionRequest "params"%string)]))) =
  [(ua.MessageType.SecureOpen, 1, 1); (ua.MessageType.SecureMessage, 7, 2)].
Proof.
  vm_compute. split; [intros [H _]; discriminate|].
  split; [discriminate|]. split; reflexivity.
Qed.

(** C3 on the test double: a SecureOpen as first frame, and a Hello. *)
Lemma hello_exchange_fixture :
  loop [Fixture.open ua.SecurityTokenRequestType.Issue; Fixture.hello] Fixture.fresh =
  (set_socket
     [ua.BuildChunk (ua.Header.Build ua.MessageType.Error ua.ChunkType.Single None 0) []]
     Fixture.fresh,
   Returned tt) /\
  hello_phase Fixture.hello Fixture.fresh =
  (set_socket
     [ua.BuildChunk
        (ua.Header.Build ua.MessageType.Acknowledge ua.ChunkType.Single None 20)
        [ua.AcknowledgePart (ua.Acknowledge.Build 65536 65536)]]
     Fixture.fresh,
   Returned true).
Proof.
  split.
  - destruct (hello_exchange (Fixture.open ua.SecurityTokenRequestType.Issue)
                [Fixture.hello] Fixture.fresh eq_refl) as [H _].
    apply H. vm_compute. discriminate.
  - destruct (hello_exchange Fixture.hello [] Fixture.fresh eq_refl) as [_ H].
    destruct (H eq_refl (ua.Hello.Build 65536 65536) eq_refl) as [Hphase _].
    exact Hphase.
Defined.

(** C4 on the test double: after S5 the queue holds the slots of handles 20
    and 21; a callback leaves the slot of 21; on a fresh processor a
    callback does nothing. *)
Lemma publish_queue_accounting_S5 :
  _publishdata_queue (fst (forward_publish_response "N1"%string (Fixture.after Fixture.S5))) =
  [BuildPublishRequestData (ua.RequestHeader.Build 21)
     (ua.Symmetric (ua.SymmetricAlgorithmHeader.Build 14))
     (ua.SequenceHeader.Build 21 21)] /\
  forward_publish_response "N1"%string Fixture.fresh = (Fixture.fresh, Returned tt).
Proof.
  destruct (@publish_queue_accounting Fixture.World nat string _ _ _ _ _)
    as (_ & Hpop & Hempty & _).
  split.
  - eapply Hpop. vm_compute. reflexivity.
  - apply Hempty. reflexivity.
Defined.

(** C5 on S5: two outstanding requests, handles 20 then 21, and two
    notifications N1 then N2. *)
Lemma publish_responses_fifo_S5 :
  replies (socket (forward_all ["N1"%string; "N2"%string] (Fixture.after Fixture.S5))) =
  replies (socket (Fixture.after Fixture.S5)) ++
  [(ua.MessageType.SecureMessage, 20, 3, ua.PublishResponse "N1"%string);
   (ua.MessageType.SecureMessage, 21, 4, ua.PublishResponse "N2"%string)].
Proof.
  destruct (channel (Fixture.after Fixture.S5)) as [ch|] eqn:Hch;
    [|vm_compute in Hch; discriminate].
  destruct (publish_responses_fifo (Fixture.after Fixture.S5)
              ["N1"%string; "N2"%string]) as [_ Hreplies].
  exact (Hreplies ch Hch).
Defined.

(** C6 on the test double: a Renew on the channel that S4 opened. *)
Lemma open_secure_channel_record_renew :
  let self : Fixture.Processor :=
    processor (run (map Receive Fixture.S4) (connect Fixture.start "client"%string)) in
  let renew :=
    ua.OpenSecureChannelParameters.Build ua.SecurityTokenRequestType.Renew [] 5000 in
  exists ch,
    snd (_open_secure_channel renew self) = Returned ch /\
    ua.ChannelSecurityToken.TokenId (ua.OpenSecureChannelResult.SecurityToken ch) <> 0 /\
    ua.ChannelSecurityToken.RevisedLifetime (ua.OpenSecureChannelResult.SecurityToken ch)
    = 5000 /\
    (32 <= List.length (ua.OpenSecureChannelResult.ServerNonce ch))%nat.
Proof.
  intros self renew.
  destruct (open_secure_channel_record Fixture.start "client"%string
              (map Receive Fixture.S4) renew)
    as (ch & Hreturned & Hnonzero & _ & _ & _ & Hlifetime & _ & Hnonce).
  - right. vm_compute. discriminate.
  - exists ch. fold self in Hreturned. rewrite Hreturned. auto.
Defined.

(** C7 on the test double: ActivateSession on an open channel, before any
    CreateSession. *)
Lemma activate_session_without_session :
  let self := Fixture.after [Fixture.hello; Fixture.open ua.SecurityTokenRequestType.Issue] in
  let outcome :=
    process_message (ua.Symmetric (ua.SymmetricAlgorithmHeader.Build 14))
      (ua.SequenceHeader.Build 8 8) (ua.RequestHeader.Build 8)
      (ua.ActivateSessionRequest "token"%string) self in
  snd outcome = Returned tt /\
  replies (socket (fst outcome)) =
  replies (socket self) ++
  [(ua.MessageType.SecureMessage, 8, 2,
    ua.ActivateSessionResponse (ua.StatusCode ua.StatusCodes.BadSessionIdInvalid))].
Proof.
  intros self outcome.
  destruct (channel self) as [ch|] eqn:Hch; [|vm_compute in Hch; discriminate].
  destruct (activate_session_reply self
              (ua.Symmetric (ua.SymmetricAlgorithmHeader.Build 14))
              (ua.SequenceHeader.Build 8 8) (ua.RequestHeader.Build 8) "token"%string)
    as (_ & _ & Hopen).
  destruct (Hopen ch Hch) as (Hreturned & Hnone & _).
  split; [exact Hreturned|].
  subst outcome. rewrite (Hnone eq_refl), replies_app. reflexivity.
Defined.

(** C8 fails as stated: in S4 the three session replies carry the sequence
    numbers 2, 3, 4, not 1, 2, 3. *)
Lemma session_scenario_S4_numbers :
  let sent := replies (socket (Fixture.after Fixture.S4)) in
  map fst sent =
  [(ua.MessageType.SecureOpen, 1, 1); (ua.MessageType.SecureMessage, 7, 2);
   (ua.MessageType.SecureMessage, 8, 3); (ua.MessageType.SecureMessage, 9, 4)] /\
  ~ (exists b1 b2 b3,
       skipn 1 sent =
       [(ua.MessageType.SecureMessage, 7, 1, b1); (ua.MessageType.SecureMessage, 8, 2, b2);
        (ua.MessageType.SecureMessage, 9, 3, b3)]).
Proof.
  split.
  - vm_compute. reflexivity.
  - intros (b1 & b2 & b3 & H). vm_compute in H. discriminate.
Qed.

(** C9 on the test double: S5, then a SecureClose for an unknown channel
    ends the loop; the callback still finds the two slots and the channel. *)
Lemma publish_callback_after_close :
  let self := Fixture.after (Fixture.S5 ++ [Fixture.close 999]) in
  map fst (replies (socket (fst (forward_publish_response "N1"%string self)))) =
  map fst (replies (socket self)) ++ [(ua.MessageType.SecureMessage, 20, 3)].
Proof.
  intros self.
  destruct (publish_callback_after_exit self "N1"%string) as (_ & _ & _ & Hslot).
  erewrite Hslot; [|vm_compute; reflexivity|vm_compute; reflexivity].
  vm_compute. reflexivity.
Defined.

(** C9 fails as stated: after the loop has exited on that SecureClose, the
    queue is not drained, the channel is not nulled, and a publish callback
    is no no-op: it writes a PublishResponse to the socket. *)
Lemma late_publish_response_is_written :
  let stream := Fixture.S5 ++ [Fixture.close 999] in
  let self := Fixture.after stream in
  let late := forward_publish_response "N1"%string self in
  snd (loop stream Fixture.fresh) = Returned tt /\
  _publishdata_queue self <> [] /\
  channel self <> None /\
  late <> (self, Returned tt) /\
  List.length (socket (fst late)) = S (List.length (socket self)).
Proof.
  vm_compute. repeat split; try discriminate.
Qed.

(** C10 on the test double: a Read on an open channel, before any
    CreateSession. *)
Lemma read_without_session_raises :
  let self := Fixture.after [Fixture.hello; Fixture.open ua.SecurityTokenRequestType.Issue] in
  let dispatched :=
    process_message (ua.Symmetric (ua.SymmetricAlgorithmHeader.Build 14))
      (ua.SequenceHeader.Build 5 5) (ua.RequestHeader.Build 5)
      (ua.ReadRequest "nodes"%string) self in
  snd dispatched = Raised AttributeError /\ socket (fst dispatched) = socket self.
Proof.
  intros self dispatched.
  destruct (session_scoped_request_raises self
              (ua.frame_header (Fixture.message 5 (ua.ReadRequest "nodes"%string)))
              (ua.SymmetricAlgorithmHeader.Build 14) (ua.SequenceHeader.Build 5 5)
              (ua.RequestHeader.Build 5) (ua.ReadRequest "nodes"%string)
              eq_refl eq_refl eq_refl) as (Hraised & Hsocket & _).
  split; assumption.
Defined.

(** C3 fails as stated: a first frame of type SecureOpen that announces 24
    bytes and delivers 10 gets no Error header; [receive_body] raises
    before the type is looked at, and nothing is written. *)
Lemma incomplete_first_frame_gets_no_error :
  let frame :=
    ua.BuildFrame
      (ua.Header.Build ua.MessageType.SecureOpen ua.ChunkType.Single (Some 0) 24) 10
      (ua.EmptyBody (Data := string)) in
  let out := loop [frame] Fixture.fresh in
  ua.Header.MessageType (ua.frame_header frame) <> ua.MessageType.Hello /\
  snd out = Raised ReceiveError /\
  socket (fst out) = [].
Proof.
  vm_compute. split; [discriminate|]. split; reflexivity.
Qed.

(** C6 fails as stated: a Renew as the first SecureOpen of a connection,
    right after the Hello, raises and sets nothing; there is no record, no
    token id, no nonce, and the read loop dies with only the Acknowledge
    written. *)
Lemma renew_before_issue_sets_nothing :
  let self := Fixture.after [Fixture.hello] in
  let renew :=
    ua.OpenSecureChannelParameters.Build ua.SecurityTokenRequestType.Renew [] 600000 in
  let out := _open_secure_channel renew self in
  snd out = Raised AttributeError /\
  channel (fst out) = None /\
  fst out = self /\
  let looped :=
    loop [Fixture.hello; Fixture.open ua.SecurityTokenRequestType.Renew] Fixture.fresh in
  snd looped = Raised AttributeError /\
  channel (fst looped) = None /\
  replies (socket (fst looped)) = [].
Proof.
  vm_compute. repeat split.
Qed.

(** C7 fails as stated: an ActivateSession right after the Hello, with no
    session bound and no channel opened, raises [AttributeError] in
    [send_response]; no ActivateSessionResponse is written and the read
    loop dies. *)
Lemma activate_session_before_channel_raises :
  let self := Fixture.after [Fixture.hello] in
  let out :=
    process_message (ua.Symmetric (ua.SymmetricAlgorithmHeader.Build 14))
      (ua.SequenceHeader.Build 8 8) (ua.RequestHeader.Build 8)
      (ua.ActivateSessionRequest "token"%string) self in
  session self = None /\
  snd out = Raised AttributeError /\
  socket (fst out) = socket self /\
  let looped :=
    loop [Fixture.hello; Fixture.message 8 (ua.ActivateSessionRequest "token"%string)]
      Fixture.fresh in
  snd looped = Raised AttributeError /\
  replies (socket (fst looped)) = [].
Proof.
  vm_compute. repeat split.
Qed.

(** ** The rest of the processor on the test double *)

(** A SecureOpen frame that announces 24 bytes and delivers 10, as first
    frame: no Error header, an exception. *)
Lemma incomplete_first_frame :
  let frame :=
    ua.BuildFrame
      (ua.Header.Build ua.MessageType.SecureOpen ua.ChunkType.Single (Some 0) 24) 10
      (ua.EmptyBody (Data := string)) in
  loop [frame; Fixture.hello] Fixture.fresh = (Fixture.fresh, Raised ReceiveError).
Proof.
  intros frame.
  destruct (incomplete_frame_raises frame [Fixture.hello] Fixture.fresh) as [H _].
  - cbn. discriminate.
  - exact H.
Defined.

(** A second Hello on an open channel is skipped. *)
Lemma second_hello_is_skipped :
  let opened := Fixture.after [Fixture.hello; Fixture.open ua.SecurityTokenRequestType.Issue] in
  let read := Fixture.message 5 (ua.ReadRequest "nodes"%string) in
  loop_while [Fixture.hello; read] opened = loop_while [read] opened.
Proof.
  intros opened read.
  destruct (frames_outside_the_channel Fixture.hello [read] opened) as [_ H].
  apply H; [reflexivity | left; reflexivity].
Defined.

(** A Renew as the first SecureOpen of a connection. *)
Lemma renew_on_fresh_connection :
  let frame := Fixture.open ua.SecurityTokenRequestType.Renew in
  process_body (ua.frame_header frame) (ua.frame_body frame) Fixture.fresh =
  (Fixture.fresh, Raised AttributeError).
Proof.
  intros frame.
  destruct (renew_without_channel Fixture.fresh
              (ua.OpenSecureChannelParameters.Build ua.SecurityTokenRequestType.Renew []
                 600000)
              (ua.frame_header frame)
              (ua.AsymmetricAlgorithmHeader.Build
                 "http://opcfoundation.org/UA/SecurityPolicy#None" [] [] None)
              (ua.SequenceHeader.Build 1 1) (ua.RequestHeader.Build 1) []
              eq_refl eq_refl eq_refl) as (_ & H & _).
  exact H.
Defined.

(** After S4, a matching SecureClose, a CloseSession, the end of the stream
    and a late notification: channel and session are still there. *)
Lemma bindings_survive_close :
  let c : Connection Fixture.World nat string :=
    run (map Receive Fixture.S4) (connect Fixture.start "client"%string) in
  let events :=
    [Receive (Fixture.close 100);
     Receive (Fixture.message 10 (ua.CloseSessionRequest true));
     EndOfStream; Notification "N1"%string] in
  channel (processor (run events c)) <> None /\
  session (processor (run events c)) <> None.
Proof.
  intros c events.
  destruct (channel_and_session_stay events c) as [Hchannel Hsession].
  split; [apply Hchannel | apply Hsession]; vm_compute; discriminate.
Defined.

(** A CreateSession sent right after the Hello: no reply. *)
Lemma create_session_before_channel_unanswered :
  let events :=
    [Receive Fixture.hello;
     Receive (Fixture.message 7 (ua.CreateSessionRequest "params"%string))] in
  let c : Connection Fixture.World nat string :=
    run events (connect Fixture.start "client"%string) in
  replies (socket (processor c)) = [] /\ (List.length (socket (processor c)) <= 1)%nat.
Proof.
  intros events c.
  destruct (no_reply_before_channel Fixture.start "client"%string events)
    as (Hreplies & Hlength & _).
  - vm_compute. reflexivity.
  - split; assumption.
Defined.

(** A Read after S4 is answered once, with its handle. *)
Lemma read_is_answered_once :
  let self := Fixture.after Fixture.S4 in
  let out :=
    process_message (ua.Symmetric (ua.SymmetricAlgorithmHeader.Build 14))
      (ua.SequenceHeader.Build 11 11) (ua.RequestHeader.Build 11)
      (ua.ReadRequest "nodes"%string) self in
  map fst (replies (socket (fst out))) =
  map fst (replies (socket self)) ++ [(ua.MessageType.SecureMessage, 11, 5)].
Proof.
  intros self out.
  destruct (process_message_replies_once self
              (ua.Symmetric (ua.SymmetricAlgorithmHeader.Build 14))
              (ua.SequenceHeader.Build 11 11) (ua.RequestHeader.Build 11)
              (ua.ReadRequest "nodes"%string))
    as [(Hsocket & _)|(ch & body & _ & _ & _ & Hreplies & _)].
  - apply (f_equal (@List.length _)) in Hsocket. vm_compute in Hsocket. discriminate.
  - subst out. rewrite Hreplies, map_app. reflexivity.
Defined.

(** An unknown type id on an open channel with no session. *)
Lemma unknown_service_fault :
  let self := Fixture.after [Fixture.hello; Fixture.open ua.SecurityTokenRequestType.Issue] in
  let out :=
    process_message (ua.Symmetric (ua.SymmetricAlgorithmHeader.Build 14))
      (ua.SequenceHeader.Build 99 99) (ua.RequestHeader.Build 99)
      (ua.UnknownRequest 12345) self in
  snd out = Returned tt /\
  replies (socket (fst out)) =
  replies (socket self) ++ [(ua.MessageType.SecureMessage, 99, 2, ua.ServiceFault)] /\
  service_results (socket (fst out)) =
  [ua.StatusCodes.Good; ua.StatusCodes.BadNotImplemented].
Proof.
  intros self out.
  destruct (channel self) as [ch|] eqn:Hch; [|vm_compute in Hch; discriminate].
  destruct (services_without_session self ch
              (ua.Symmetric (ua.SymmetricAlgorithmHeader.Build 14))
              (ua.SequenceHeader.Build 99 99) (ua.RequestHeader.Build 99) Hch)
    as [Hfault _].
  destruct (Hfault 12345) as (Hreturned & Hreplies & Hresults & _).
  split; [exact Hreturned|]. split; [exact Hreplies|].
  subst out. rewrite Hresults. reflexivity.
Defined.

(** A CreateSession on a fresh processor: it raises, and binds session 0. *)
Lemma create_session_binds_without_channel :
  let out :=
    process_message (ua.Symmetric (ua.SymmetricAlgorithmHeader.Build 14))
      (ua.SequenceHeader.Build 7 7) (ua.RequestHeader.Build 7)
      (ua.CreateSessionRequest "params"%string) Fixture.fresh in
  session (fst out) = Some 0%nat /\ snd out = Raised AttributeError.
Proof.
  intros out.
  destruct (create_session_binds Fixture.fresh
              (ua.Symmetric (ua.SymmetricAlgorithmHeader.Build 14))
              (ua.SequenceHeader.Build 7 7) (ua.RequestHeader.Build 7) "params"%string)
    as (Hsession & _ & Hnone & _).
  destruct (Hnone eq_refl) as [Hraised _].
  split; [exact Hsession | exact Hraised].
Defined.

(** A second CloseSession after S4 is answered, by the session still bound. *)
Lemma close_session_keeps_session :
  let self := Fixture.after Fixture.S4 in
  let out :=
    process_message (ua.Symmetric (ua.SymmetricAlgorithmHeader.Build 14))
      (ua.SequenceHeader.Build 10 10) (ua.RequestHeader.Build 10)
      (ua.CloseSessionRequest true) self in
  snd out = Returned tt /\ session (fst out) = Some 0%nat.
Proof.
  intros self out.
  destruct (channel self) as [ch|] eqn:Hch; [|vm_compute in Hch; discriminate].
  destruct (bound_session_answers self 0%nat ch
              (ua.Symmetric (ua.SymmetricAlgorithmHeader.Build 14))
              (ua.SequenceHeader.Build 10 10) (ua.RequestHeader.Build 10)
              (ua.CloseSessionRequest true) eq_refl Hch eq_refl)
    as (Hreturned & _ & Hsession & _).
  split; assumption.
Defined.

(** An Issue and three Renews: token id 17 on channel 100. *)
Lemma issue_and_three_renewals :
  let renew := fun lifetime =>
    ua.OpenSecureChannelParameters.Build ua.SecurityTokenRequestType.Renew [] lifetime in
  let issue :=
    ua.OpenSecureChannelParameters.Build ua.SecurityTokenRequestType.Issue [] 600000 in
  exists ch,
    channel (open_all [issue; renew 1000; renew 2000; renew 3000] Fixture.fresh) = Some ch /\
    ua.ChannelSecurityToken.TokenId (ua.OpenSecureChannelResult.SecurityToken ch) = 17 /\
    ua.ChannelSecurityToken.ChannelId (ua.OpenSecureChannelResult.SecurityToken ch) = 100 /\
    ua.ChannelSecurityToken.RevisedLifetime (ua.OpenSecureChannelResult.SecurityToken ch)
    = 3000.
Proof.
  intros renew issue.
  destruct (issue_then_renewals Fixture.fresh issue
              [renew 1000; renew 2000; renew 3000] eq_refl)
    as (ch & Hch & Htoken & Hid & Hlifetime).
  - repeat constructor.
  - exists ch. repeat split; assumption.
Defined.

(** The first SecureOpen of a connection. *)
Lemma first_secure_open_reply :
  let self := Fixture.after [Fixture.hello] in
  let out :=
    open_secure_channel (ua.frame_body (Fixture.open ua.SecurityTokenRequestType.Issue))
      self in
  snd out = Returned tt /\
  envelopes (socket (fst out)) = [(Some 100, Some 14, 1, 1)].
Proof.
  intros self out.
  destruct (secure_open_reply self
              (ua.AsymmetricAlgorithmHeader.Build
                 "http://opcfoundation.org/UA/SecurityPolicy#None" [] [] None)
              (ua.SequenceHeader.Build 1 1)
              (ua.OpenSecureChannelRequest.Build (ua.RequestHeader.Build 1)
                 (ua.OpenSecureChannelParameters.Build ua.SecurityTokenRequestType.Issue
                    [] 600000))
              (or_introl eq_refl))
    as (Hreturned & ch & Hch & _ & Henvelopes).
  split; [exact Hreturned|].
  refine (eq_trans Henvelopes _).
  vm_compute in Hch. inversion Hch. reflexivity.
Defined.

(** S5, then a renewal, then a notification: the PublishResponse for handle
    20 carries token id 15. *)
Lemma publish_response_carries_renewed_token :
  let self := Fixture.after Fixture.S5 in
  let renew :=
    ua.OpenSecureChannelParameters.Build ua.SecurityTokenRequestType.Renew [] 5000 in
  let out :=
    forward_publish_response "N1"%string (fst (_open_secure_channel renew self)) in
  envelopes (socket (fst out)) =
  envelopes (socket self) ++ [(Some 100, Some 15, 3, 20)].
Proof.
  intros self renew out.
  destruct (channel self) as [ch|] eqn:Hch; [|vm_compute in Hch; discriminate].
  destruct (_publishdata_queue self) as [|slot rest] eqn:Hq;
    [vm_compute in Hq; discriminate|].
  destruct (publish_response_after_renewal self ch slot rest renew "N1"%string
              Hch Hq eq_refl) as [_ Henvelopes].
  refine (eq_trans Henvelopes _).
  vm_compute in Hch. inversion Hch. vm_compute in Hq. inversion Hq. reflexivity.
Defined.

(** One PublishRequest and its notification, after a CreateSession. *)
Lemma publish_and_notify :
  let self :=
    Fixture.after [Fixture.hello; Fixture.open ua.SecurityTokenRequestType.Issue;
                   Fixture.message 7 (ua.CreateSessionRequest "params"%string)] in
  let queued :=
    process_message (ua.Symmetric (ua.SymmetricAlgorithmHeader.Build 14))
      (ua.SequenceHeader.Build 30 31) (ua.RequestHeader.Build 20)
      (ua.PublishRequest [1; 2]) self in
  let out := forward_publish_response "N1"%string (fst queued) in
  _publishdata_queue (fst out) = [] /\
  replies (socket (fst out)) =
  replies (socket self) ++
  [(ua.MessageType.SecureMessage, 20, 3, ua.PublishResponse "N1"%string)].
Proof.
  intros self queued out.
  destruct (channel self) as [ch|] eqn:Hch; [|vm_compute in Hch; discriminate].
  destruct (publish_round_trip self 0%nat ch
              (ua.Symmetric (ua.SymmetricAlgorithmHeader.Build 14))
              (ua.SequenceHeader.Build 30 31) (ua.RequestHeader.Build 20) [1; 2]
              "N1"%string eq_refl Hch eq_refl)
    as (_ & _ & _ & _ & Hqueue & Hreplies & _).
  split; [exact Hqueue | exact Hreplies].
Defined.
